(** * LoadingScenarioObserver: counting core and event adapter

    A shallow embedding of
    [components/performance_manager/scenarios/loading_scenario_observer.{h,cc}]
    and of the part of the page graph that drives it, followed by the
    properties of the counting core, of each notification handler and of
    whole runs of graph events. *)

From Stdlib Require Import ZArith Bool Lia.
From stdpp Require Import base list.

(* ===================================================================== *)
(** ** Enumerations and page attributes *)
(* ===================================================================== *)

(** [PageNode::LoadingState]; the five variants are the cases of the switch
    in [StateIsLoading], which has no default branch. *)
Inductive LoadingState : Type :=
  | kLoadingNotStarted
  | kLoading
  | kLoadingTimedOut
  | kLoadedBusy
  | kLoadedIdle.

(** [LoadingScenario], the four values returned by [GetScenario]. *)
Inductive LoadingScenario : Type :=
  | kNoPageLoading
  | kBackgroundPageLoading
  | kVisiblePageLoading
  | kFocusedPageLoading.

#[global] Instance LoadingState_eq_dec : EqDecision LoadingState.
Proof. solve_decision. Defined.

#[global] Instance LoadingScenario_eq_dec : EqDecision LoadingScenario.
Proof. solve_decision. Defined.

(** Modelled from the spec: the page object of the page-graph collaborator
    ([page_node.h] is not part of the sources).  Section 6 of the
    specification gives its three per-page accessors; the field names are
    the accessor names used by the observer. *)
Record PageNode : Type := mkPageNode {
  GetLoadingState : LoadingState;
  IsVisible : bool;
  IsFocused : bool
}.

#[global] Instance PageNode_eq_dec : EqDecision PageNode.
Proof. solve_decision. Defined.

(** [StateIsLoading] (loading_scenario_observer.cc, lines 22-33). *)
Definition StateIsLoading (loading_state : LoadingState) : bool :=
  match loading_state with
  | kLoadingNotStarted | kLoadingTimedOut | kLoadedIdle => false
  | kLoading | kLoadedBusy => true
  end.

(* ===================================================================== *)
(** ** Fatal checks and checked [size_t] arithmetic *)
(* ===================================================================== *)

(** The outcome of code that may hit a [CHECK]: either it goes on with a
    value, or the process is terminated. *)
Inductive result (A : Type) : Type :=
  | Ok (a : A)
  | Fatal.
Arguments Ok {A} a.
Arguments Fatal {A}.

#[global] Instance result_ret : MRet result := fun A a => Ok a.
#[global] Instance result_bind : MBind result := fun A B f m =>
  match m with
  | Ok a => f a
  | Fatal => Fatal
  end.

(** [CHECK(cond)]. *)
Definition CHECK (cond : bool) : result unit :=
  if cond then Ok tt else Fatal.

Local Open Scope Z_scope.

(** The largest [size_t]; counters are modelled as integers of 64 bits. *)
Definition SIZE_MAX : Z := 2 ^ 64 - 1.

(** A value of type [size_t]. *)
Definition is_size_t (n : Z) : Prop := 0 <= n <= SIZE_MAX.

(** Modelled from the spec: [base::CheckAdd] and [base::CheckSub] of
    [base/numerics/checked_math.h], which is not part of the sources.  The
    comments on [CheckIncrement] and [CheckDecrement] and section 3 of the
    specification say that the operation is carried out on the mathematical
    integers and is invalid when the result does not fit the unsigned
    range. *)
Definition CheckAdd (x y : Z) : option Z :=
  let r := x + y in
  if (0 <=? r) && (r <=? SIZE_MAX) then Some r else None.

Definition CheckSub (x y : Z) : option Z :=
  let r := x - y in
  if (0 <=? r) && (r <=? SIZE_MAX) then Some r else None.

(** Modelled from the spec: [CheckedNumeric::ValueOrDie], fatal on an
    invalid value. *)
Definition ValueOrDie (v : option Z) : result Z :=
  match v with
  | Some n => Ok n
  | None => Fatal
  end.

(** [CheckIncrement] and [CheckDecrement] (lines 35-43).  The source updates
    [num] through a reference; here the new value is returned. *)
Definition CheckIncrement (num : Z) : result Z :=
  ValueOrDie (CheckAdd num 1).

Definition CheckDecrement (num : Z) : result Z :=
  ValueOrDie (CheckSub num 1).

(* ===================================================================== *)
(** ** [LoadingScenarioObserver::LoadingCounts] *)
(* ===================================================================== *)

Record LoadingCounts : Type := mkLoadingCounts {
  focused_loading_pages_ : Z;
  visible_loading_pages_ : Z;
  loading_pages_ : Z
}.

#[global] Instance LoadingCounts_eq_dec : EqDecision LoadingCounts.
Proof. solve_decision. Defined.

(** [LoadingCounts{}]: every member is initialised to 0. *)
Definition LoadingCounts_default : LoadingCounts :=
  {| focused_loading_pages_ := 0;
     visible_loading_pages_ := 0;
     loading_pages_ := 0 |}.

(** The three members are [size_t] values. *)
Definition counts_in_range (c : LoadingCounts) : Prop :=
  is_size_t (focused_loading_pages_ c) /\
  is_size_t (visible_loading_pages_ c) /\
  is_size_t (loading_pages_ c).

(** [LoadingCounts::GetScenario] (lines 47-58). *)
Definition GetScenario (c : LoadingCounts) : LoadingScenario :=
  if 0 <? focused_loading_pages_ c then kFocusedPageLoading
  else if 0 <? visible_loading_pages_ c then kVisiblePageLoading
  else if 0 <? loading_pages_ c then kBackgroundPageLoading
  else kNoPageLoading.

(** [LoadingCounts::IncrementLoadingPageCounts] (lines 60-70). *)
Definition IncrementLoadingPageCounts (visible focused : bool)
    (c : LoadingCounts) : result LoadingCounts :=
  l ← CheckIncrement (loading_pages_ c);
  v ← (if visible then CheckIncrement (visible_loading_pages_ c)
       else Ok (visible_loading_pages_ c));
  f ← (if focused then CheckIncrement (focused_loading_pages_ c)
       else Ok (focused_loading_pages_ c));
  Ok {| focused_loading_pages_ := f;
        visible_loading_pages_ := v;
        loading_pages_ := l |}.

(** [LoadingCounts::DecrementLoadingPageCounts] (lines 72-82). *)
Definition DecrementLoadingPageCounts (visible focused : bool)
    (c : LoadingCounts) : result LoadingCounts :=
  l ← CheckDecrement (loading_pages_ c);
  v ← (if visible then CheckDecrement (visible_loading_pages_ c)
       else Ok (visible_loading_pages_ c));
  f ← (if focused then CheckDecrement (focused_loading_pages_ c)
       else Ok (focused_loading_pages_ c));
  Ok {| focused_loading_pages_ := f;
        visible_loading_pages_ := v;
        loading_pages_ := l |}.

(** The invariant of section 3 of the specification. *)
Definition counts_nested (c : LoadingCounts) : Prop :=
  focused_loading_pages_ c <= visible_loading_pages_ c /\
  visible_loading_pages_ c <= loading_pages_ c.

Local Close Scope Z_scope.

(* ===================================================================== *)
(** ** The state the observer runs in *)
(* ===================================================================== *)

(** Everything the observer reads or writes: the graph it is passed to, its
    own member [global_counts_], and the published scenario cell of scope
    [kGlobal].  Two further fields record effects and are never read by the
    code: [scenario_stores] lists every value stored to the cell, oldest
    first, and [counts_trace] lists the value of [global_counts_] after
    every operation on it, oldest first. *)
Record World : Type := mkWorld {
  page_nodes : list PageNode;
  page_node_observer : bool;
  global_counts_ : LoadingCounts;
  global_loading_scenario : LoadingScenario;
  scenario_stores : list LoadingScenario;
  counts_trace : list LoadingCounts
}.

(** Code that runs on the owning sequence: it may change the world and may
    hit a fatal check. *)
Definition M (A : Type) : Type := World -> result (A * World).

#[global] Instance M_ret : MRet M := fun A a w => Ok (a, w).
#[global] Instance M_bind : MBind M := fun A B f m w =>
  match m w with
  | Ok (a, w') => f a w'
  | Fatal => Fatal
  end.

(** The world a computation ends in, when it does not hit a fatal check. *)
Definition exec {A : Type} (m : M A) (w : World) : result World :=
  match m w with
  | Ok (_, w') => Ok w'
  | Fatal => Fatal
  end.

Definition check (cond : bool) : M unit := fun w =>
  match CHECK cond with
  | Ok _ => Ok (tt, w)
  | Fatal => Fatal
  end.

Definition when (cond : bool) (body : M unit) : M unit :=
  if cond then body else mret tt.

(** A range-based [for] over a container. *)
Fixpoint for_each {A : Type} (l : list A) (body : A -> M unit) : M unit :=
  match l with
  | [] => mret tt
  | x :: l' => body x ;; for_each l' body
  end.

(** A call [global_counts_.op(...)] of a member function that updates the
    counts in place. *)
Definition on_global_counts (op : LoadingCounts -> result LoadingCounts)
    : M unit := fun w =>
  match op (global_counts_ w) with
  | Ok c =>
      Ok (tt, {| page_nodes := page_nodes w;
                 page_node_observer := page_node_observer w;
                 global_counts_ := c;
                 global_loading_scenario := global_loading_scenario w;
                 scenario_stores := scenario_stores w;
                 counts_trace := counts_trace w ++ [c] |})
  | Fatal => Fatal
  end.

(** The assignment [global_counts_ = c]. *)
Definition assign_global_counts (c : LoadingCounts) : M unit :=
  on_global_counts (fun _ => Ok c).

Definition read_global_counts : M LoadingCounts := fun w =>
  Ok (global_counts_ w, w).

(** Modelled from the spec: [SetGlobalLoadingScenario] of
    [performance_scenarios.h], which is not part of the sources; by section
    6 of the specification it stores the value into the published cell of
    the scope. *)
Definition SetGlobalLoadingScenario (scenario : LoadingScenario) : M unit :=
  fun w =>
  Ok (tt, {| page_nodes := page_nodes w;
             page_node_observer := page_node_observer w;
             global_counts_ := global_counts_ w;
             global_loading_scenario := scenario;
             scenario_stores := scenario_stores w ++ [scenario];
             counts_trace := counts_trace w |}).

(** Modelled from the spec: the load
    [GetLoadingScenario(Scope::kGlobal)->load(std::memory_order_relaxed)]
    of the same cell. *)
Definition GetLoadingScenario_load : M LoadingScenario := fun w =>
  Ok (global_loading_scenario w, w).

(** Modelled from the spec: [Graph::AddPageNodeObserver],
    [Graph::RemovePageNodeObserver] and [Graph::GetAllPageNodes] of the
    page-graph collaborator ([graph.h] is not part of the sources). *)
Definition set_page_node_observer (registered : bool) : M unit := fun w =>
  Ok (tt, {| page_nodes := page_nodes w;
             page_node_observer := registered;
             global_counts_ := global_counts_ w;
             global_loading_scenario := global_loading_scenario w;
             scenario_stores := scenario_stores w;
             counts_trace := counts_trace w |}).

Definition AddPageNodeObserver : M unit := set_page_node_observer true.
Definition RemovePageNodeObserver : M unit := set_page_node_observer false.

Definition GetAllPageNodes : M (list PageNode) := fun w =>
  Ok (page_nodes w, w).

(* ===================================================================== *)
(** ** [LoadingScenarioObserver] *)
(* ===================================================================== *)

(** [UpdateGlobalScenario] (lines 167-170). *)
Definition UpdateGlobalScenario : M unit :=
  c ← read_global_counts;
  SetGlobalLoadingScenario (GetScenario c).

(** [OnPageNodeAdded] (lines 84-91). *)
Definition OnPageNodeAdded (page_node : PageNode) : M unit :=
  when (StateIsLoading (GetLoadingState page_node))
    (on_global_counts
       (IncrementLoadingPageCounts (IsVisible page_node)
                                   (IsFocused page_node))) ;;
  UpdateGlobalScenario.

(** [OnBeforePageNodeRemoved] (lines 93-101). *)
Definition OnBeforePageNodeRemoved (page_node : PageNode) : M unit :=
  when (StateIsLoading (GetLoadingState page_node))
    (on_global_counts
       (DecrementLoadingPageCounts (IsVisible page_node)
                                   (IsFocused page_node)) ;;
     UpdateGlobalScenario).

(** [OnIsFocusedChanged] (lines 103-112). *)
Definition OnIsFocusedChanged (page_node : PageNode) : M unit :=
  when (StateIsLoading (GetLoadingState page_node))
    (on_global_counts
       (DecrementLoadingPageCounts (IsVisible page_node)
                                   (negb (IsFocused page_node))) ;;
     on_global_counts
       (IncrementLoadingPageCounts (IsVisible page_node)
                                   (IsFocused page_node)) ;;
     UpdateGlobalScenario).

(** [OnIsVisibleChanged] (lines 114-123). *)
Definition OnIsVisibleChanged (page_node : PageNode) : M unit :=
  when (StateIsLoading (GetLoadingState page_node))
    (on_global_counts
       (DecrementLoadingPageCounts (negb (IsVisible page_node))
                                   (IsFocused page_node)) ;;
     on_global_counts
       (IncrementLoadingPageCounts (IsVisible page_node)
                                   (IsFocused page_node)) ;;
     UpdateGlobalScenario).

(** [OnLoadingStateChanged] (lines 125-141). *)
Definition OnLoadingStateChanged (page_node : PageNode)
    (previous_state : LoadingState) : M unit :=
  let is_loading := StateIsLoading (GetLoadingState page_node) in
  let was_loading := StateIsLoading previous_state in
  when (negb (eqb is_loading was_loading))
    ((if is_loading
      then on_global_counts
             (IncrementLoadingPageCounts (IsVisible page_node)
                                         (IsFocused page_node))
      else on_global_counts
             (DecrementLoadingPageCounts (IsVisible page_node)
                                         (IsFocused page_node))) ;;
     UpdateGlobalScenario).

(** [OnPassedToGraph] (lines 143-158). *)
Definition OnPassedToGraph : M unit :=
  AddPageNodeObserver ;;
  c ← read_global_counts;
  check (bool_decide (c = LoadingCounts_default)) ;;
  s ← GetLoadingScenario_load;
  check (bool_decide (s = kNoPageLoading)) ;;
  nodes ← GetAllPageNodes;
  for_each nodes (fun page_node =>
    when (StateIsLoading (GetLoadingState page_node))
      (on_global_counts
         (IncrementLoadingPageCounts (IsVisible page_node)
                                     (IsFocused page_node)))) ;;
  UpdateGlobalScenario.

(** [OnTakenFromGraph] (lines 160-165). *)
Definition OnTakenFromGraph : M unit :=
  RemovePageNodeObserver ;;
  assign_global_counts LoadingCounts_default ;;
  UpdateGlobalScenario.

(* ===================================================================== *)
(** ** The page graph that drives the observer *)
(* ===================================================================== *)

(** Modelled from the spec: the operations of the page-graph collaborator
    that lead to a notification ([graph_impl.h] and [page_node_impl.h] are
    not part of the sources; the unit tests drive the observer through
    them).  A page is named by its position in [page_nodes]. *)
Inductive GraphEvent : Type :=
  | AddPageNode (page_node : PageNode)
  | RemovePageNode (i : nat)
  | SetIsFocused (i : nat) (focused : bool)
  | SetIsVisible (i : nat) (visible : bool)
  | SetLoadingState (i : nat) (loading_state : LoadingState).

Definition set_page_nodes (nodes : list PageNode) : M unit := fun w =>
  Ok (tt, {| page_nodes := nodes;
             page_node_observer := page_node_observer w;
             global_counts_ := global_counts_ w;
             global_loading_scenario := global_loading_scenario w;
             scenario_stores := scenario_stores w;
             counts_trace := counts_trace w |}).

(** A notification reaches the observer only while it is registered. *)
Definition notify (handler : M unit) : M unit := fun w =>
  if page_node_observer w then handler w else Ok (tt, w).

Definition with_IsFocused (p : PageNode) (focused : bool) : PageNode :=
  {| GetLoadingState := GetLoadingState p;
     IsVisible := IsVisible p;
     IsFocused := focused |}.

Definition with_IsVisible (p : PageNode) (visible : bool) : PageNode :=
  {| GetLoadingState := GetLoadingState p;
     IsVisible := visible;
     IsFocused := IsFocused p |}.

Definition with_LoadingState (p : PageNode) (s : LoadingState) : PageNode :=
  {| GetLoadingState := s;
     IsVisible := IsVisible p;
     IsFocused := IsFocused p |}.

(** Modelled from the spec: what the graph does on each operation (section
    6 of the specification).  A page is announced once it is in the graph
    and before it leaves it; a setter writes the attribute and notifies only
    when the value changes, the loading-state notification carrying the
    previous state; the handler reads the page as it is at that moment.  An
    operation on a page that is not in the graph does nothing. *)
Definition deliver (e : GraphEvent) : M unit :=
  nodes ← GetAllPageNodes;
  match e with
  | AddPageNode p =>
      set_page_nodes (nodes ++ [p]) ;;
      notify (OnPageNodeAdded p)
  | RemovePageNode i =>
      match nodes !! i with
      | Some p =>
          notify (OnBeforePageNodeRemoved p) ;;
          set_page_nodes (delete i nodes)
      | None => mret tt
      end
  | SetIsFocused i focused =>
      match nodes !! i with
      | Some p =>
          if bool_decide (IsFocused p = focused) then mret tt
          else
            set_page_nodes (<[i := with_IsFocused p focused]> nodes) ;;
            notify (OnIsFocusedChanged (with_IsFocused p focused))
      | None => mret tt
      end
  | SetIsVisible i visible =>
      match nodes !! i with
      | Some p =>
          if bool_decide (IsVisible p = visible) then mret tt
          else
            set_page_nodes (<[i := with_IsVisible p visible]> nodes) ;;
            notify (OnIsVisibleChanged (with_IsVisible p visible))
      | None => mret tt
      end
  | SetLoadingState i s =>
      match nodes !! i with
      | Some p =>
          if bool_decide (GetLoadingState p = s) then mret tt
          else
            set_page_nodes (<[i := with_LoadingState p s]> nodes) ;;
            notify (OnLoadingStateChanged (with_LoadingState p s)
                                          (GetLoadingState p))
      | None => mret tt
      end
  end.

(** The observer is passed to a graph, which then goes through [events]. *)
Definition run (events : list GraphEvent) : M unit :=
  OnPassedToGraph ;;
  for_each events deliver.

(** A graph with the given pages, an observer that was just constructed and
    a published cell that holds [kNoPageLoading]. *)
Definition initial_world (nodes : list PageNode) : World :=
  {| page_nodes := nodes;
     page_node_observer := false;
     global_counts_ := LoadingCounts_default;
     global_loading_scenario := kNoPageLoading;
     scenario_stores := [];
     counts_trace := [] |}.

(** The pages of the graph after one operation, and after each operation of
    a run (the graph's own part of [deliver]). *)
Definition graph_step (e : GraphEvent) (nodes : list PageNode)
    : list PageNode :=
  match e with
  | AddPageNode p => nodes ++ [p]
  | RemovePageNode i => delete i nodes
  | SetIsFocused i focused =>
      match nodes !! i with
      | Some p => <[i := with_IsFocused p focused]> nodes
      | None => nodes
      end
  | SetIsVisible i visible =>
      match nodes !! i with
      | Some p => <[i := with_IsVisible p visible]> nodes
      | None => nodes
      end
  | SetLoadingState i s =>
      match nodes !! i with
      | Some p => <[i := with_LoadingState p s]> nodes
      | None => nodes
      end
  end.

Fixpoint graphs_along (events : list GraphEvent) (nodes : list PageNode)
    : list (list PageNode) :=
  nodes ::
  match events with
  | [] => []
  | e :: events' => graphs_along events' (graph_step e nodes)
  end.

(* ===================================================================== *)
(** ** What the counts are meant to count *)
(* ===================================================================== *)

Definition is_loading (p : PageNode) : bool :=
  StateIsLoading (GetLoadingState p).

Fixpoint count_pages (P : PageNode -> bool) (nodes : list PageNode) : Z :=
  match nodes with
  | [] => 0
  | p :: nodes' => ((if P p then 1 else 0) + count_pages P nodes')%Z
  end.

(** The counts of a population: the pages that satisfy the loading
    predicate, those of them that are visible and those that are focused. *)
Definition census (nodes : list PageNode) : LoadingCounts :=
  {| focused_loading_pages_ :=
       count_pages (fun p => is_loading p && IsFocused p) nodes;
     visible_loading_pages_ :=
       count_pages (fun p => is_loading p && IsVisible p) nodes;
     loading_pages_ := count_pages is_loading nodes |}.

(** The collaborator's guarantee of section 9 of the specification, for the
    pages that the counts look at: a page that satisfies the loading
    predicate and reports focus reports visibility. *)
Definition loading_focus_implies_visible (p : PageNode) : Prop :=
  is_loading p = true -> IsFocused p = true -> IsVisible p = true.

(** The size of a node set fits [size_t]. *)
Definition fits_size_t (n : nat) : Prop := (Z.of_nat n <= SIZE_MAX)%Z.

(** A graph whose node set is one that the machine can hold. *)
Definition graph_fits (nodes : list PageNode) : Prop :=
  fits_size_t (length nodes).

(** What a handler that republishes leaves behind: the counts [c], the
    scenario derived from them in the published cell, and exactly one more
    store, of that scenario. *)
Definition republished (w w' : World) (c : LoadingCounts) : Prop :=
  global_counts_ w' = c /\
  global_loading_scenario w' = GetScenario c /\
  scenario_stores w' = scenario_stores w ++ [GetScenario c].

(** The counter [n] moved up, or down, by one when [touched] and left alone
    otherwise: what the two member functions do to a counter when no check
    fails. *)
Definition bump (touched : bool) (n : Z) : Z :=
  if touched then (n + 1)%Z else n.

Definition drop1 (touched : bool) (n : Z) : Z :=
  if touched then (n - 1)%Z else n.

(** The census of a population that one more page joins. *)
Definition add_page (p : PageNode) (c : LoadingCounts) : LoadingCounts :=
  if is_loading p
  then {| focused_loading_pages_ :=
            bump (IsFocused p) (focused_loading_pages_ c);
          visible_loading_pages_ :=
            bump (IsVisible p) (visible_loading_pages_ c);
          loading_pages_ := (loading_pages_ c + 1)%Z |}
  else c.

(** A step of the observer that leaves the graph, the registration and the
    published cell alone. *)
Definition same_outside_counts (w w' : World) : Prop :=
  page_nodes w' = page_nodes w /\
  page_node_observer w' = page_node_observer w /\
  global_loading_scenario w' = global_loading_scenario w /\
  scenario_stores w' = scenario_stores w.

(** What a handler did to the counts: they end as [c], after passing
    through the values [seen], and the graph and the registration are as
    before. *)
Definition counted (w w' : World) (c : LoadingCounts)
    (seen : list LoadingCounts) : Prop :=
  global_counts_ w' = c /\
  counts_trace w' = counts_trace w ++ seen /\
  page_nodes w' = page_nodes w /\
  page_node_observer w' = page_node_observer w.

(** The counts are the census of the graph. *)
Definition tracks (w : World) : Prop :=
  global_counts_ w = census (page_nodes w).

(** Every value the counts went through satisfies [Q]. *)
Definition trace_within (Q : LoadingCounts -> Prop) (w : World) : Prop :=
  Forall Q (counts_trace w).

(** The observer is registered, its counts are the census of the graph and
    its trace lies within [Q]. *)
Definition attached (Q : LoadingCounts -> Prop) (w : World) : Prop :=
  page_node_observer w = true /\ tracks w /\ trace_within Q w.

(* ===================================================================== *)
(** ** Concrete inputs *)
(* ===================================================================== *)

(** Counts whose three counters hold the maximum. *)
Definition counts_at_max : LoadingCounts :=
  mkLoadingCounts SIZE_MAX SIZE_MAX SIZE_MAX.

(** One visible loading page that is not focused. *)
Definition counts_one_visible : LoadingCounts := mkLoadingCounts 0 1 1.

(** A page as [CreateNode<PageNodeImpl>()] makes it in the unit tests. *)
Definition idle_page : PageNode := mkPageNode kLoadingNotStarted false false.

(** The population of concrete scenario 6 of the specification: two idle
    pages, a loading visible page and a loading visible focused page. *)
Definition four_pages : list PageNode :=
  [ mkPageNode kLoadedIdle false false;
    mkPageNode kLoadedIdle false false;
    mkPageNode kLoading true false;
    mkPageNode kLoading true true ].

(* ===================================================================== *)
(** ** The observer interface, and runs seen from outside *)
(* ===================================================================== *)

(** The five notifications of [PageNodeObserver] that the observer
    overrides (loading_scenario_observer.h, lines 54-59), as one type, and
    their dispatch to the handlers. *)
Inductive Notification : Type :=
  | PageNodeAdded (page_node : PageNode)
  | BeforePageNodeRemoved (page_node : PageNode)
  | IsFocusedChanged (page_node : PageNode)
  | IsVisibleChanged (page_node : PageNode)
  | LoadingStateChanged (page_node : PageNode) (previous_state : LoadingState).

Definition handle (n : Notification) : M unit :=
  match n with
  | PageNodeAdded p => OnPageNodeAdded p
  | BeforePageNodeRemoved p => OnBeforePageNodeRemoved p
  | IsFocusedChanged p => OnIsFocusedChanged p
  | IsVisibleChanged p => OnIsVisibleChanged p
  | LoadingStateChanged p previous_state =>
      OnLoadingStateChanged p previous_state
  end.

(** The pages of the graph at the end of a run. *)
Fixpoint graph_after (events : list GraphEvent) (nodes : list PageNode)
    : list PageNode :=
  match events with
  | [] => nodes
  | e :: events' => graph_after events' (graph_step e nodes)
  end.

(** Some page of the graph satisfies [P]. *)
Definition some_page (P : PageNode -> bool) (nodes : list PageNode) : Prop :=
  exists p, p ∈ nodes /\ P p = true.

(** The published cell holds the scenario of the current counts. *)
Definition synced (w : World) : Prop :=
  global_loading_scenario w = GetScenario (global_counts_ w).

(** The value of the published cell after each operation of the graph, as a
    unit test reads it through [GlobalLoadingScenario()]; the list stops at
    a fatal check. *)
Fixpoint scenarios_along (events : list GraphEvent) (w : World)
    : list LoadingScenario :=
  match events with
  | [] => []
  | e :: events' =>
      match exec (deliver e) w with
      | Ok w' => global_loading_scenario w' :: scenarios_along events' w'
      | Fatal => []
      end
  end.

(** The fixture of the unit tests: the observer is passed to the graph when
    the graph is created, and the test then works on the graph. *)
Definition test_scenarios (nodes : list PageNode) (events : list GraphEvent)
    : list LoadingScenario :=
  match exec OnPassedToGraph (initial_world nodes) with
  | Ok w => scenarios_along events w
  | Fatal => []
  end.

(** A loading page in the background, and counts in which it is the only
    page counted. *)
Definition background_loading_page : PageNode :=
  mkPageNode kLoading false false.

Definition counts_one_background : LoadingCounts := mkLoadingCounts 0 0 1.

(* ===================================================================== *)
(** * Properties of the counting core *)
(* ===================================================================== *)

Section CheckedArithmetic.
Local Open Scope Z_scope.

Lemma SIZE_MAX_pos : 0 < SIZE_MAX.
Proof. reflexivity. Qed.

Lemma CheckIncrement_below (n : Z) :
  0 <= n < SIZE_MAX -> CheckIncrement n = Ok (n + 1).
Proof.
  intros Hn. unfold CheckIncrement, CheckAdd. cbv zeta.
  destruct (Z.leb_spec 0 (n + 1)); [|lia].
  destruct (Z.leb_spec (n + 1) SIZE_MAX); [reflexivity|lia].
Qed.

Lemma CheckIncrement_at_max (n : Z) :
  SIZE_MAX <= n -> CheckIncrement n = Fatal.
Proof.
  intros Hn. unfold CheckIncrement, CheckAdd. cbv zeta.
  destruct (Z.leb_spec (n + 1) SIZE_MAX); [lia|].
  now rewrite andb_false_r.
Qed.

Lemma CheckDecrement_above (n : Z) :
  0 < n <= SIZE_MAX -> CheckDecrement n = Ok (n - 1).
Proof.
  intros Hn. unfold CheckDecrement, CheckSub. cbv zeta.
  destruct (Z.leb_spec 0 (n - 1)); [|lia].
  destruct (Z.leb_spec (n - 1) SIZE_MAX); [reflexivity|lia].
Qed.

Lemma CheckDecrement_at_zero (n : Z) :
  n <= 0 -> CheckDecrement n = Fatal.
Proof.
  intros Hn. unfold CheckDecrement, CheckSub. cbv zeta.
  destruct (Z.leb_spec 0 (n - 1)); [lia|reflexivity].
Qed.

Lemma Increment_ok (visible focused : bool) (c : LoadingCounts) :
  0 <= loading_pages_ c < SIZE_MAX ->
  (visible = true -> 0 <= visible_loading_pages_ c < SIZE_MAX) ->
  (focused = true -> 0 <= focused_loading_pages_ c < SIZE_MAX) ->
  IncrementLoadingPageCounts visible focused c =
    Ok {| focused_loading_pages_ := bump focused (focused_loading_pages_ c);
          visible_loading_pages_ := bump visible (visible_loading_pages_ c);
          loading_pages_ := loading_pages_ c + 1 |}.
Proof.
  intros Hl Hv Hf. unfold IncrementLoadingPageCounts.
  rewrite (CheckIncrement_below _ Hl). cbn.
  destruct visible, focused; cbn;
    rewrite ?(CheckIncrement_below _ (Hv eq_refl)); cbn;
    rewrite ?(CheckIncrement_below _ (Hf eq_refl)); reflexivity.
Qed.

Lemma Decrement_ok (visible focused : bool) (c : LoadingCounts) :
  0 < loading_pages_ c <= SIZE_MAX ->
  (visible = true -> 0 < visible_loading_pages_ c <= SIZE_MAX) ->
  (focused = true -> 0 < focused_loading_pages_ c <= SIZE_MAX) ->
  DecrementLoadingPageCounts visible focused c =
    Ok {| focused_loading_pages_ := drop1 focused (focused_loading_pages_ c);
          visible_loading_pages_ := drop1 visible (visible_loading_pages_ c);
          loading_pages_ := loading_pages_ c - 1 |}.
Proof.
  intros Hl Hv Hf. unfold DecrementLoadingPageCounts.
  rewrite (CheckDecrement_above _ Hl). cbn.
  destruct visible, focused; cbn;
    rewrite ?(CheckDecrement_above _ (Hv eq_refl)); cbn;
    rewrite ?(CheckDecrement_above _ (Hf eq_refl)); reflexivity.
Qed.

Lemma CheckDecrement_cases (n : Z) :
  is_size_t n ->
  (n = 0 /\ CheckDecrement n = Fatal) \/
  (0 < n /\ CheckDecrement n = Ok (n - 1)).
Proof.
  intros [Hlo Hhi]. destruct (Z.eq_dec n 0) as [->|Hn].
  - left. split; [reflexivity|]. apply CheckDecrement_at_zero. lia.
  - right. split; [lia|]. apply CheckDecrement_above. lia.
Qed.

Lemma CheckIncrement_cases (n : Z) :
  is_size_t n ->
  (n = SIZE_MAX /\ CheckIncrement n = Fatal) \/
  (n < SIZE_MAX /\ CheckIncrement n = Ok (n + 1)).
Proof.
  intros [Hlo Hhi]. destruct (Z.eq_dec n SIZE_MAX) as [->|Hn].
  - left. split; [reflexivity|]. apply CheckIncrement_at_max. lia.
  - right. split; [lia|]. apply CheckIncrement_below. lia.
Qed.

(** A successful decrement tells which counters were positive. *)
Lemma Decrement_inv (visible focused : bool) (c c1 : LoadingCounts) :
  counts_in_range c ->
  DecrementLoadingPageCounts visible focused c = Ok c1 ->
  0 < loading_pages_ c /\
  (visible = true -> 0 < visible_loading_pages_ c) /\
  (focused = true -> 0 < focused_loading_pages_ c) /\
  c1 = {| focused_loading_pages_ := drop1 focused (focused_loading_pages_ c);
          visible_loading_pages_ := drop1 visible (visible_loading_pages_ c);
          loading_pages_ := loading_pages_ c - 1 |}.
Proof.
  intros (Hf & Hv & Hl) Hdec. unfold DecrementLoadingPageCounts in Hdec.
  destruct (CheckDecrement_cases _ Hl) as [[_ El]|[Hl' El]];
    rewrite El in Hdec; cbn in Hdec; [discriminate|].
  destruct visible; cbn in Hdec.
  - destruct (CheckDecrement_cases _ Hv) as [[_ Ev]|[Hv' Ev]];
      rewrite Ev in Hdec; cbn in Hdec; [discriminate|].
    destruct focused; cbn in Hdec.
    + destruct (CheckDecrement_cases _ Hf) as [[_ Ef]|[Hf' Ef]];
        rewrite Ef in Hdec; cbn in Hdec; [discriminate|].
      injection Hdec as <-. auto.
    + injection Hdec as <-. repeat split; auto; discriminate.
  - destruct focused; cbn in Hdec.
    + destruct (CheckDecrement_cases _ Hf) as [[_ Ef]|[Hf' Ef]];
        rewrite Ef in Hdec; cbn in Hdec; [discriminate|].
      injection Hdec as <-. repeat split; auto; discriminate.
    + injection Hdec as <-. repeat split; auto; discriminate.
Qed.

(** An increment is fatal when a counter it touches holds the maximum, a
    decrement when a counter it touches holds zero. *)
Lemma Increment_fatal (visible focused : bool) (c : LoadingCounts) :
  counts_in_range c ->
  loading_pages_ c = SIZE_MAX \/
  (visible = true /\ visible_loading_pages_ c = SIZE_MAX) \/
  (focused = true /\ focused_loading_pages_ c = SIZE_MAX) ->
  IncrementLoadingPageCounts visible focused c = Fatal.
Proof.
  intros (Hf & Hv & Hl) Hmax. unfold IncrementLoadingPageCounts.
  destruct (CheckIncrement_cases _ Hl) as [[Ml El]|[Ml El]]; rewrite El;
    cbn; [reflexivity|].
  destruct visible, focused; cbn;
    try (destruct (CheckIncrement_cases _ Hv) as [[Mv Ev]|[Mv Ev]];
         rewrite Ev; cbn);
    try (destruct (CheckIncrement_cases _ Hf) as [[Mf Ef]|[Mf Ef]];
         rewrite Ef; cbn);
    try reflexivity;
    destruct Hmax as [?|[[? ?]|[? ?]]]; first [lia | discriminate].
Qed.

Lemma Decrement_fatal (visible focused : bool) (c : LoadingCounts) :
  counts_in_range c ->
  loading_pages_ c = 0 \/
  (visible = true /\ visible_loading_pages_ c = 0) \/
  (focused = true /\ focused_loading_pages_ c = 0) ->
  DecrementLoadingPageCounts visible focused c = Fatal.
Proof.
  intros (Hf & Hv & Hl) Hzero. unfold DecrementLoadingPageCounts.
  destruct (CheckDecrement_cases _ Hl) as [[Ml El]|[Ml El]]; rewrite El;
    cbn; [reflexivity|].
  destruct visible, focused; cbn;
    try (destruct (CheckDecrement_cases _ Hv) as [[Mv Ev]|[Mv Ev]];
         rewrite Ev; cbn);
    try (destruct (CheckDecrement_cases _ Hf) as [[Mf Ef]|[Mf Ef]];
         rewrite Ef; cbn);
    try reflexivity;
    destruct Hzero as [?|[[? ?]|[? ?]]]; first [lia | discriminate].
Qed.

End CheckedArithmetic.

Section CountingCore.
Local Open Scope Z_scope.

(** C7. [StateIsLoading] is true exactly for [kLoading] and [kLoadedBusy]
    and false exactly for [kLoadingNotStarted], [kLoadingTimedOut] and
    [kLoadedIdle]; these five states are all the states there are, so the
    predicate is defined on each of them. *)
Theorem StateIsLoading_exact (s : LoadingState) :
  (StateIsLoading s = true <-> s = kLoading \/ s = kLoadedBusy) /\
  (StateIsLoading s = false <->
     s = kLoadingNotStarted \/ s = kLoadingTimedOut \/ s = kLoadedIdle) /\
  s ∈ [kLoadingNotStarted; kLoading; kLoadingTimedOut; kLoadedBusy;
       kLoadedIdle].
Proof.
  split; [|split].
  - split.
    + destruct s; cbn; intros H; try discriminate H; auto.
    + intros [-> | ->]; reflexivity.
  - split.
    + destruct s; cbn; intros H; try discriminate H; auto.
    + intros [-> | [-> | ->]]; reflexivity.
  - destruct s; repeat constructor.
Qed.

(** C1. [GetScenario] follows the precedence order: focused loading pages
    give [kFocusedPageLoading]; otherwise visible loading pages give
    [kVisiblePageLoading]; otherwise loading pages give
    [kBackgroundPageLoading]; otherwise the result is [kNoPageLoading]. *)
Theorem GetScenario_precedence (c : LoadingCounts) :
  (focused_loading_pages_ c > 0 ->
     GetScenario c = kFocusedPageLoading) /\
  (~ focused_loading_pages_ c > 0 -> visible_loading_pages_ c > 0 ->
     GetScenario c = kVisiblePageLoading) /\
  (~ focused_loading_pages_ c > 0 -> ~ visible_loading_pages_ c > 0 ->
   loading_pages_ c > 0 ->
     GetScenario c = kBackgroundPageLoading) /\
  (~ focused_loading_pages_ c > 0 -> ~ visible_loading_pages_ c > 0 ->
   ~ loading_pages_ c > 0 ->
     GetScenario c = kNoPageLoading).
Proof.
  unfold GetScenario.
  destruct (Z.ltb_spec 0 (focused_loading_pages_ c));
    destruct (Z.ltb_spec 0 (visible_loading_pages_ c));
    destruct (Z.ltb_spec 0 (loading_pages_ c));
    repeat split; intros; first [reflexivity | lia].
Qed.

(** C4. On counts that are [size_t] values, [IncrementLoadingPageCounts]
    is fatal exactly when a counter it touches holds the maximum, and
    [DecrementLoadingPageCounts] exactly when a counter it touches holds
    zero; when they return, every counter is again a [size_t] value and
    each touched counter moved by exactly one, so nothing wrapped. *)
Theorem checked_counts_trap_or_step (visible focused : bool)
    (c : LoadingCounts) (Hc : counts_in_range c) :
  (IncrementLoadingPageCounts visible focused c = Fatal <->
     loading_pages_ c = SIZE_MAX \/
     (visible = true /\ visible_loading_pages_ c = SIZE_MAX) \/
     (focused = true /\ focused_loading_pages_ c = SIZE_MAX)) /\
  (forall c', IncrementLoadingPageCounts visible focused c = Ok c' ->
     counts_in_range c' /\
     loading_pages_ c' = loading_pages_ c + 1 /\
     visible_loading_pages_ c' = bump visible (visible_loading_pages_ c) /\
     focused_loading_pages_ c' = bump focused (focused_loading_pages_ c)) /\
  (DecrementLoadingPageCounts visible focused c = Fatal <->
     loading_pages_ c = 0 \/
     (visible = true /\ visible_loading_pages_ c = 0) \/
     (focused = true /\ focused_loading_pages_ c = 0)) /\
  (forall c', DecrementLoadingPageCounts visible focused c = Ok c' ->
     counts_in_range c' /\
     loading_pages_ c' = loading_pages_ c - 1 /\
     visible_loading_pages_ c' = drop1 visible (visible_loading_pages_ c) /\
     focused_loading_pages_ c' = drop1 focused (focused_loading_pages_ c)).
Proof.
  destruct Hc as (Hf & Hv & Hl).
  pose proof Hf as Hf0. pose proof Hv as Hv0. pose proof Hl as Hl0.
  unfold is_size_t in Hf0, Hv0, Hl0.
  split; [|split; [|split]].
  - unfold IncrementLoadingPageCounts.
    destruct (CheckIncrement_cases _ Hl) as [[Ml El]|[Ml El]]; rewrite El;
      cbn; [split; auto|].
    destruct visible, focused; cbn;
      try (destruct (CheckIncrement_cases _ Hv) as [[Mv Ev]|[Mv Ev]];
           rewrite Ev; cbn);
      try (destruct (CheckIncrement_cases _ Hf) as [[Mf Ef]|[Mf Ef]];
           rewrite Ef; cbn);
      split; auto; try discriminate;
      intros [?|[[? ?]|[? ?]]]; first [lia | discriminate].
  - intros c'. unfold IncrementLoadingPageCounts.
    destruct (CheckIncrement_cases _ Hl) as [[Ml El]|[Ml El]]; rewrite El;
      cbn; [discriminate|].
    destruct visible, focused; cbn;
      try (destruct (CheckIncrement_cases _ Hv) as [[Mv Ev]|[Mv Ev]];
           rewrite Ev; cbn);
      try (destruct (CheckIncrement_cases _ Hf) as [[Mf Ef]|[Mf Ef]];
           rewrite Ef; cbn);
      intros E; try discriminate E; injection E as <-;
      unfold counts_in_range, is_size_t; cbn; lia.
  - unfold DecrementLoadingPageCounts.
    destruct (CheckDecrement_cases _ Hl) as [[Ml El]|[Ml El]]; rewrite El;
      cbn; [split; auto|].
    destruct visible, focused; cbn;
      try (destruct (CheckDecrement_cases _ Hv) as [[Mv Ev]|[Mv Ev]];
           rewrite Ev; cbn);
      try (destruct (CheckDecrement_cases _ Hf) as [[Mf Ef]|[Mf Ef]];
           rewrite Ef; cbn);
      split; auto; try discriminate;
      intros [?|[[? ?]|[? ?]]]; first [lia | discriminate].
  - intros c'. unfold DecrementLoadingPageCounts.
    destruct (CheckDecrement_cases _ Hl) as [[Ml El]|[Ml El]]; rewrite El;
      cbn; [discriminate|].
    destruct visible, focused; cbn;
      try (destruct (CheckDecrement_cases _ Hv) as [[Mv Ev]|[Mv Ev]];
           rewrite Ev; cbn);
      try (destruct (CheckDecrement_cases _ Hf) as [[Mf Ef]|[Mf Ef]];
           rewrite Ef; cbn);
      intros E; try discriminate E; injection E as <-;
      unfold counts_in_range, is_size_t; cbn; lia.
Qed.

(** The theorem at counts whose focused counter holds the maximum: an
    increment that touches it is fatal. *)
Lemma checked_counts_trap_or_step_witness :
  counts_in_range (mkLoadingCounts SIZE_MAX 7 9) /\
  IncrementLoadingPageCounts false true (mkLoadingCounts SIZE_MAX 7 9)
    = Fatal.
Proof.
  assert (H : counts_in_range (mkLoadingCounts SIZE_MAX 7 9)).
  { unfold counts_in_range, is_size_t, SIZE_MAX. cbn. lia. }
  split; [exact H|].
  apply (proj1 (checked_counts_trap_or_step false true _ H)).
  right. right. split; reflexivity.
Defined.

End CountingCore.

Section FocusChange.
Local Open Scope Z_scope.

(** C3, as stated, fails: with every counter at the maximum the decrement
    of [OnIsFocusedChanged] for a page that became focused succeeds, and
    the increment that follows is fatal on the focused counter. *)
Lemma focus_change_fatal_at_max :
  counts_in_range counts_at_max /\
  DecrementLoadingPageCounts true (negb true) counts_at_max =
    Ok (mkLoadingCounts SIZE_MAX (SIZE_MAX - 1) (SIZE_MAX - 1)) /\
  IncrementLoadingPageCounts true true
    (mkLoadingCounts SIZE_MAX (SIZE_MAX - 1) (SIZE_MAX - 1)) = Fatal.
Proof.
  split; [|split].
  - unfold counts_in_range, is_size_t, counts_at_max, SIZE_MAX. cbn. lia.
  - vm_compute. reflexivity.
  - vm_compute. reflexivity.
Qed.

(** C3, amended. When [DecrementLoadingPageCounts(visible, !focused)] does
    not underflow and, for [focused] true, the focused counter is below
    the maximum, the [IncrementLoadingPageCounts(visible, focused)] that
    follows returns, [loading_pages_] and [visible_loading_pages_] are
    back at their values before the two calls, and
    [focused_loading_pages_] moved by +1 for [focused] true and by -1 for
    [focused] false. *)
Theorem focus_change_moves_focused_only (visible focused : bool)
    (c c1 : LoadingCounts) :
  counts_in_range c ->
  DecrementLoadingPageCounts visible (negb focused) c = Ok c1 ->
  (focused = true -> focused_loading_pages_ c < SIZE_MAX) ->
  exists c2,
    IncrementLoadingPageCounts visible focused c1 = Ok c2 /\
    loading_pages_ c2 = loading_pages_ c /\
    visible_loading_pages_ c2 = visible_loading_pages_ c /\
    focused_loading_pages_ c2 =
      focused_loading_pages_ c + (if focused then 1 else -1).
Proof.
  intros Hc Hdec Hroom.
  destruct (Decrement_inv _ _ _ _ Hc Hdec) as (Hl & Hv & Hf & ->).
  destruct Hc as (Rf & Rv & Rl). unfold is_size_t in Rf, Rv, Rl.
  eexists. split.
  - apply Increment_ok; cbn.
    + lia.
    + intros ->. specialize (Hv eq_refl). cbn. lia.
    + intros ->. specialize (Hroom eq_refl). cbn. lia.
  - cbn. destruct visible, focused; cbn; repeat split; lia.
Qed.

(** The amended statement at a page that is visible and became focused
    while one visible page is loading. *)
Lemma focus_change_moves_focused_only_witness :
  exists c2,
    IncrementLoadingPageCounts true true (mkLoadingCounts 0 0 0) = Ok c2 /\
    loading_pages_ c2 = 1 /\
    visible_loading_pages_ c2 = 1 /\
    focused_loading_pages_ c2 = 0 + 1.
Proof.
  apply (focus_change_moves_focused_only true true counts_one_visible
           (mkLoadingCounts 0 0 0)).
  - unfold counts_in_range, is_size_t, counts_one_visible, SIZE_MAX.
    cbn. lia.
  - vm_compute. reflexivity.
  - intros _. unfold counts_one_visible, SIZE_MAX. cbn. lia.
Defined.

End FocusChange.

(* ===================================================================== *)
(** * Properties of the notification handlers *)
(* ===================================================================== *)

(** Unfolds the sequencing of a handler down to matches on the outcome of
    the counting core. *)
Ltac unfold_handler :=
  unfold exec, OnPageNodeAdded, OnBeforePageNodeRemoved, OnIsFocusedChanged,
    OnIsVisibleChanged, OnLoadingStateChanged, OnTakenFromGraph,
    OnPassedToGraph, UpdateGlobalScenario, assign_global_counts,
    AddPageNodeObserver, RemovePageNodeObserver, when;
  unfold mbind, M_bind, mret, M_ret, on_global_counts, read_global_counts,
    SetGlobalLoadingScenario, GetLoadingScenario_load, GetAllPageNodes,
    set_page_node_observer, check, CHECK, republished.

Section Handlers.

(** C6. From every world, [OnTakenFromGraph] returns with the three
    counters at zero and [kNoPageLoading] in the published cell. *)
Theorem OnTakenFromGraph_resets (w : World) :
  exists w',
    exec OnTakenFromGraph w = Ok w' /\
    focused_loading_pages_ (global_counts_ w') = 0%Z /\
    visible_loading_pages_ (global_counts_ w') = 0%Z /\
    loading_pages_ (global_counts_ w') = 0%Z /\
    global_loading_scenario w' = kNoPageLoading.
Proof.
  eexists. split.
  - unfold_handler. cbn. reflexivity.
  - cbn. auto.
Qed.

(** C8. [OnLoadingStateChanged] with the loading predicate equal on the
    previous and the current state returns the world as it was: no
    counter moves and nothing is stored to the published cell.  When the
    predicate became true it increments, when it became false it
    decrements, with the page's current visible and focused flags, and
    it then stores the scenario of the new counts; it is fatal exactly
    when that increment or decrement is.  On counts that are [size_t]
    values this means: when the predicate became true the handler is fatal
    if [loading_pages_], or the visible counter of a visible page, or the
    focused counter of a focused page, holds the maximum, and otherwise it
    returns with [loading_pages_] one higher, the visible counter one
    higher for a visible page and the focused counter one higher for a
    focused page, every other counter as it was, and one store of the
    scenario of these counts; when the predicate became false the same
    with zero for the maximum and lower for higher. *)
Theorem OnLoadingStateChanged_effect (page_node : PageNode)
    (previous_state : LoadingState) (w : World) :
  (StateIsLoading (GetLoadingState page_node)
     = StateIsLoading previous_state ->
   exec (OnLoadingStateChanged page_node previous_state) w = Ok w) /\
  (StateIsLoading (GetLoadingState page_node) = true ->
   StateIsLoading previous_state = false ->
   match IncrementLoadingPageCounts (IsVisible page_node)
           (IsFocused page_node) (global_counts_ w) with
   | Ok c => exists w',
       exec (OnLoadingStateChanged page_node previous_state) w = Ok w' /\
       republished w w' c
   | Fatal =>
       exec (OnLoadingStateChanged page_node previous_state) w = Fatal
   end) /\
  (StateIsLoading (GetLoadingState page_node) = false ->
   StateIsLoading previous_state = true ->
   match DecrementLoadingPageCounts (IsVisible page_node)
           (IsFocused page_node) (global_counts_ w) with
   | Ok c => exists w',
       exec (OnLoadingStateChanged page_node previous_state) w = Ok w' /\
       republished w w' c
   | Fatal =>
       exec (OnLoadingStateChanged page_node previous_state) w = Fatal
   end) /\
  (StateIsLoading (GetLoadingState page_node) = true ->
   StateIsLoading previous_state = false ->
   counts_in_range (global_counts_ w) ->
   (loading_pages_ (global_counts_ w) = SIZE_MAX \/
    (IsVisible page_node = true /\
     visible_loading_pages_ (global_counts_ w) = SIZE_MAX) \/
    (IsFocused page_node = true /\
     focused_loading_pages_ (global_counts_ w) = SIZE_MAX) ->
    exec (OnLoadingStateChanged page_node previous_state) w = Fatal) /\
   ((loading_pages_ (global_counts_ w) < SIZE_MAX)%Z ->
    (IsVisible page_node = true ->
     (visible_loading_pages_ (global_counts_ w) < SIZE_MAX)%Z) ->
    (IsFocused page_node = true ->
     (focused_loading_pages_ (global_counts_ w) < SIZE_MAX)%Z) ->
    exists w',
      exec (OnLoadingStateChanged page_node previous_state) w = Ok w' /\
      loading_pages_ (global_counts_ w')
        = (loading_pages_ (global_counts_ w) + 1)%Z /\
      visible_loading_pages_ (global_counts_ w')
        = (visible_loading_pages_ (global_counts_ w)
           + (if IsVisible page_node then 1 else 0))%Z /\
      focused_loading_pages_ (global_counts_ w')
        = (focused_loading_pages_ (global_counts_ w)
           + (if IsFocused page_node then 1 else 0))%Z /\
      republished w w' (global_counts_ w'))) /\
  (StateIsLoading (GetLoadingState page_node) = false ->
   StateIsLoading previous_state = true ->
   counts_in_range (global_counts_ w) ->
   (loading_pages_ (global_counts_ w) = 0%Z \/
    (IsVisible page_node = true /\
     visible_loading_pages_ (global_counts_ w) = 0%Z) \/
    (IsFocused page_node = true /\
     focused_loading_pages_ (global_counts_ w) = 0%Z) ->
    exec (OnLoadingStateChanged page_node previous_state) w = Fatal) /\
   ((0 < loading_pages_ (global_counts_ w))%Z ->
    (IsVisible page_node = true ->
     (0 < visible_loading_pages_ (global_counts_ w))%Z) ->
    (IsFocused page_node = true ->
     (0 < focused_loading_pages_ (global_counts_ w))%Z) ->
    exists w',
      exec (OnLoadingStateChanged page_node previous_state) w = Ok w' /\
      loading_pages_ (global_counts_ w')
        = (loading_pages_ (global_counts_ w) - 1)%Z /\
      visible_loading_pages_ (global_counts_ w')
        = (visible_loading_pages_ (global_counts_ w)
           - (if IsVisible page_node then 1 else 0))%Z /\
      focused_loading_pages_ (global_counts_ w')
        = (focused_loading_pages_ (global_counts_ w)
           - (if IsFocused page_node then 1 else 0))%Z /\
      republished w w' (global_counts_ w'))).
Proof.
  split; [|split; [|split; [|split]]].
  - intros E. unfold_handler. rewrite E.
    destruct (StateIsLoading previous_state); reflexivity.
  - intros E1 E2. unfold_handler. rewrite E1, E2. cbn.
    destruct (IncrementLoadingPageCounts _ _ _); [|reflexivity].
    eexists. split; [reflexivity|]. cbn. auto.
  - intros E1 E2. unfold_handler. rewrite E1, E2. cbn.
    destruct (DecrementLoadingPageCounts _ _ _); [|reflexivity].
    eexists. split; [reflexivity|]. cbn. auto.
  - intros E1 E2 Hc. pose proof Hc as (Rf & Rv & Rl).
    unfold is_size_t in Rf, Rv, Rl. split.
    + intros Hmax. unfold_handler. rewrite E1, E2. cbn.
      rewrite (Increment_fatal _ _ _ Hc Hmax). reflexivity.
    + intros Hl Hv Hf. unfold_handler. rewrite E1, E2. cbn.
      rewrite Increment_ok.
      * eexists. split; [reflexivity|]. cbn. unfold bump.
        destruct (IsVisible page_node), (IsFocused page_node);
          repeat split; lia.
      * lia.
      * intros Ev. specialize (Hv Ev). lia.
      * intros Ef. specialize (Hf Ef). lia.
  - intros E1 E2 Hc. pose proof Hc as (Rf & Rv & Rl).
    unfold is_size_t in Rf, Rv, Rl. split.
    + intros Hzero. unfold_handler. rewrite E1, E2. cbn.
      rewrite (Decrement_fatal _ _ _ Hc Hzero). reflexivity.
    + intros Hl Hv Hf. unfold_handler. rewrite E1, E2. cbn.
      rewrite Decrement_ok.
      * eexists. split; [reflexivity|]. cbn. unfold drop1.
        destruct (IsVisible page_node), (IsFocused page_node);
          repeat split; lia.
      * lia.
      * intros Ev. specialize (Hv Ev). lia.
      * intros Ef. specialize (Hf Ef). lia.
Qed.

(** The statement for a visible page that starts loading in an empty
    world, and for the same page when it has finished loading: the counts
    go to one loading, one visible page and back to zero. *)
Lemma OnLoadingStateChanged_effect_witness :
  (exists w',
     exec (OnLoadingStateChanged (mkPageNode kLoading true false)
             kLoadingNotStarted) (initial_world []) = Ok w' /\
     global_counts_ w' = counts_one_visible /\
     global_loading_scenario w' = kVisiblePageLoading) /\
  (exists w',
     exec (OnLoadingStateChanged (mkPageNode kLoadedIdle true false)
             kLoading)
       (mkWorld [] true counts_one_visible kVisiblePageLoading [] [])
       = Ok w' /\
     global_counts_ w' = LoadingCounts_default /\
     global_loading_scenario w' = kNoPageLoading).
Proof.
  split.
  - destruct (proj1 (proj2 (proj2 (proj2
                (OnLoadingStateChanged_effect
                   (mkPageNode kLoading true false) kLoadingNotStarted
                   (initial_world []))))) eq_refl eq_refl)
      as [_ Hstep].
    + unfold counts_in_range, is_size_t, SIZE_MAX. cbn. lia.
    + destruct Hstep as (w' & Hrun & Hl & Hv & Hf & (_ & Hs & _)).
      * unfold SIZE_MAX. cbn. lia.
      * intros _. unfold SIZE_MAX. cbn. lia.
      * intros H. discriminate H.
      * exists w'. split; [exact Hrun|]. rewrite Hs.
        destruct (global_counts_ w') as [f v l].
        cbn in Hl, Hv, Hf. rewrite Hl, Hv, Hf. split; reflexivity.
  - destruct (proj2 (proj2 (proj2 (proj2
                (OnLoadingStateChanged_effect
                   (mkPageNode kLoadedIdle true false) kLoading
                   (mkWorld [] true counts_one_visible kVisiblePageLoading
                      [] []))))) eq_refl eq_refl)
      as [_ Hstep].
    + unfold counts_in_range, is_size_t, counts_one_visible, SIZE_MAX.
      cbn. lia.
    + destruct Hstep as (w' & Hrun & Hl & Hv & Hf & (_ & Hs & _)).
      * unfold counts_one_visible. cbn. lia.
      * intros _. unfold counts_one_visible. cbn. lia.
      * intros H. discriminate H.
      * exists w'. split; [exact Hrun|]. rewrite Hs.
        destruct (global_counts_ w') as [f v l].
        cbn in Hl, Hv, Hf. rewrite Hl, Hv, Hf. split; reflexivity.
Defined.

(** C9. [OnPassedToGraph] is fatal when the counts are not all zero or
    the published scenario is not [kNoPageLoading] at entry; whenever it
    returns, both held at entry. *)
Theorem OnPassedToGraph_preconditions (w : World) :
  (global_counts_ w <> LoadingCounts_default \/
   global_loading_scenario w <> kNoPageLoading ->
   exec OnPassedToGraph w = Fatal) /\
  (forall w', exec OnPassedToGraph w = Ok w' ->
   global_counts_ w = LoadingCounts_default /\
   global_loading_scenario w = kNoPageLoading).
Proof.
  split.
  - intros H. unfold_handler. cbn.
    destruct (bool_decide_reflect (global_counts_ w = LoadingCounts_default))
      as [Ec|Ec]; [|reflexivity].
    cbn.
    destruct (bool_decide_reflect (global_loading_scenario w = kNoPageLoading))
      as [Es|Es]; [|reflexivity].
    destruct H as [H|H]; contradiction.
  - intros w'. unfold_handler. cbn.
    destruct (bool_decide_reflect (global_counts_ w = LoadingCounts_default))
      as [Ec|Ec]; [|discriminate].
    cbn.
    destruct (bool_decide_reflect (global_loading_scenario w = kNoPageLoading))
      as [Es|Es]; [|discriminate].
    auto.
Qed.

(** C10. For a page that does not satisfy the loading predicate,
    [OnPageNodeAdded] leaves the counts as they are and still stores the
    scenario derived from them to the published cell, while
    [OnBeforePageNodeRemoved] returns the world as it was, with no store
    to the cell. *)
Theorem not_loading_added_vs_removed (page_node : PageNode) (w : World) :
  StateIsLoading (GetLoadingState page_node) = false ->
  (exists w',
     exec (OnPageNodeAdded page_node) w = Ok w' /\
     republished w w' (global_counts_ w) /\
     counts_trace w' = counts_trace w) /\
  exec (OnBeforePageNodeRemoved page_node) w = Ok w.
Proof.
  intros E. split.
  - eexists. split; [|split].
    + unfold_handler. rewrite E. reflexivity.
    + unfold republished. cbn. auto.
    + reflexivity.
  - unfold_handler. rewrite E. reflexivity.
Qed.

(** The statement at a page that never started loading, in the world of
    an empty graph. *)
Lemma not_loading_added_vs_removed_witness :
  (exists w',
     exec (OnPageNodeAdded idle_page) (initial_world []) = Ok w' /\
     republished (initial_world []) w'
       (global_counts_ (initial_world [])) /\
     counts_trace w' = counts_trace (initial_world [])) /\
  exec (OnBeforePageNodeRemoved idle_page) (initial_world [])
    = Ok (initial_world []).
Proof.
  apply (not_loading_added_vs_removed idle_page (initial_world [])).
  reflexivity.
Defined.

End Handlers.

(* ===================================================================== *)
(** * The counts track the population of the graph *)
(* ===================================================================== *)

Section Census.
Local Open Scope Z_scope.

Lemma count_pages_app (P : PageNode -> bool) (l1 l2 : list PageNode) :
  count_pages P (l1 ++ l2) = count_pages P l1 + count_pages P l2.
Proof. induction l1 as [|p l1 IH]; cbn; [reflexivity|]. rewrite IH. lia. Qed.

Lemma count_pages_bounds (P : PageNode -> bool) (l : list PageNode) :
  0 <= count_pages P l <= Z.of_nat (length l).
Proof.
  induction l as [|p l IH]; cbn [count_pages length]; [lia|].
  destruct (P p); lia.
Qed.

Lemma count_pages_mono (P Q : PageNode -> bool) (l : list PageNode) :
  Forall (fun p => P p = true -> Q p = true) l ->
  count_pages P l <= count_pages Q l.
Proof.
  induction 1 as [|p l Hp _ IH]; cbn; [lia|].
  destruct (P p) eqn:EP.
  - rewrite (Hp eq_refl). lia.
  - destruct (Q p); lia.
Qed.

Lemma census_nil : census [] = LoadingCounts_default.
Proof. reflexivity. Qed.

Lemma census_middle (l1 l2 : list PageNode) (p : PageNode) :
  census (l1 ++ p :: l2) = add_page p (census (l1 ++ l2)).
Proof.
  unfold census, add_page. rewrite !count_pages_app. cbn [count_pages].
  destruct (is_loading p) eqn:E; cbn [andb].
  - unfold bump. cbn. f_equal; [destruct (IsFocused p)|destruct (IsVisible p)|];
      lia.
  - f_equal; lia.
Qed.

Lemma census_snoc (l : list PageNode) (p : PageNode) :
  census (l ++ [p]) = add_page p (census l).
Proof. rewrite census_middle, app_nil_r. reflexivity. Qed.

Lemma census_in_range (l : list PageNode) :
  fits_size_t (length l) -> counts_in_range (census l).
Proof.
  unfold fits_size_t, counts_in_range, is_size_t, census. cbn. intros H.
  pose proof (count_pages_bounds (fun p => is_loading p && IsFocused p) l).
  pose proof (count_pages_bounds (fun p => is_loading p && IsVisible p) l).
  pose proof (count_pages_bounds is_loading l).
  lia.
Qed.

(** The two nestings that hold for every population. *)
Lemma census_within_loading (l : list PageNode) :
  focused_loading_pages_ (census l) <= loading_pages_ (census l) /\
  visible_loading_pages_ (census l) <= loading_pages_ (census l).
Proof.
  unfold census; cbn. split; apply count_pages_mono, Forall_forall;
    intros p _ H; apply andb_true_iff in H; tauto.
Qed.

(** The third needs the collaborator's guarantee. *)
Lemma census_nested (l : list PageNode) :
  Forall loading_focus_implies_visible l -> counts_nested (census l).
Proof.
  intros H. split; [|apply census_within_loading].
  unfold census; cbn. apply count_pages_mono.
  eapply Forall_impl; [exact H|]. cbn. intros p Hp E.
  apply andb_true_iff in E as [E1 E2]. rewrite E1, (Hp E1 E2). reflexivity.
Qed.

(** Counting a loading page in, and out again. *)
Lemma Increment_census (l1 l2 : list PageNode) (p : PageNode) :
  is_loading p = true ->
  fits_size_t (length (l1 ++ p :: l2)) ->
  IncrementLoadingPageCounts (IsVisible p) (IsFocused p) (census (l1 ++ l2))
    = Ok (census (l1 ++ p :: l2)).
Proof.
  intros E Hfit.
  assert (Hfit' : fits_size_t (length (l1 ++ l2))).
  { unfold fits_size_t in *. rewrite length_app in *. cbn in Hfit. lia. }
  pose proof (census_in_range _ Hfit) as R.
  pose proof (census_in_range _ Hfit') as Q.
  rewrite census_middle in R |- *. unfold add_page in *. rewrite E in *.
  destruct (census (l1 ++ l2)) as [f v l].
  unfold counts_in_range, is_size_t in *. cbn in *.
  apply Increment_ok; cbn.
  - lia.
  - intros Ev. rewrite Ev in *. cbn in *. lia.
  - intros Ef. rewrite Ef in *. cbn in *. lia.
Qed.

Lemma Decrement_census (l1 l2 : list PageNode) (p : PageNode) :
  is_loading p = true ->
  fits_size_t (length (l1 ++ p :: l2)) ->
  DecrementLoadingPageCounts (IsVisible p) (IsFocused p)
    (census (l1 ++ p :: l2)) = Ok (census (l1 ++ l2)).
Proof.
  intros E Hfit.
  assert (Hfit' : fits_size_t (length (l1 ++ l2))).
  { unfold fits_size_t in *. rewrite length_app in *. cbn in Hfit. lia. }
  pose proof (census_in_range _ Hfit) as R.
  pose proof (census_in_range _ Hfit') as Q.
  rewrite census_middle in R |- *. unfold add_page in *. rewrite E in *.
  destruct (census (l1 ++ l2)) as [f v l].
  unfold counts_in_range, is_size_t in *. cbn in *.
  rewrite Decrement_ok; cbn.
  - f_equal; f_equal; [destruct (IsFocused p)|destruct (IsVisible p)|];
      cbn; lia.
  - lia.
  - intros Ev. rewrite Ev in *. cbn in *. lia.
  - intros Ef. rewrite Ef in *. cbn in *. lia.
Qed.

End Census.

(* ===================================================================== *)
(** * Each handler keeps the counts equal to the census *)
(* ===================================================================== *)

Section HandlersTrack.

Lemma OnPageNodeAdded_census (l : list PageNode) (p : PageNode) (w : World) :
  global_counts_ w = census l ->
  fits_size_t (length (l ++ [p])) ->
  exists w',
    exec (OnPageNodeAdded p) w = Ok w' /\
    counted w w' (census (l ++ [p]))
      (if is_loading p then [census (l ++ [p])] else []).
Proof.
  intros Hc Hfit. unfold_handler. unfold counted, is_loading.
  destruct (StateIsLoading (GetLoadingState p)) eqn:E.
  - pose proof (Increment_census l [] p E Hfit) as Hinc.
    rewrite app_nil_r in Hinc. rewrite Hc, Hinc.
    eexists. split; [reflexivity|]. cbn. auto.
  - eexists. split; [reflexivity|]. cbn.
    rewrite census_snoc. unfold add_page, is_loading. rewrite E, app_nil_r.
    auto.
Qed.

Lemma OnBeforePageNodeRemoved_census (l1 l2 : list PageNode) (p : PageNode)
    (w : World) :
  global_counts_ w = census (l1 ++ p :: l2) ->
  fits_size_t (length (l1 ++ p :: l2)) ->
  exists w',
    exec (OnBeforePageNodeRemoved p) w = Ok w' /\
    counted w w' (census (l1 ++ l2))
      (if is_loading p then [census (l1 ++ l2)] else []).
Proof.
  intros Hc Hfit. unfold_handler. unfold counted, is_loading.
  destruct (StateIsLoading (GetLoadingState p)) eqn:E.
  - rewrite Hc, (Decrement_census l1 l2 p E Hfit).
    eexists. split; [reflexivity|]. cbn. auto.
  - eexists. split; [reflexivity|]. cbn.
    rewrite Hc, census_middle. unfold add_page, is_loading.
    rewrite E, app_nil_r. auto.
Qed.

Lemma length_middle_replace (l1 l2 : list PageNode) (p p' : PageNode) :
  length (l1 ++ p' :: l2) = length (l1 ++ p :: l2).
Proof. rewrite !length_app. reflexivity. Qed.

Lemma census_not_loading (l1 l2 : list PageNode) (p : PageNode) :
  is_loading p = false -> census (l1 ++ p :: l2) = census (l1 ++ l2).
Proof. intros E. rewrite census_middle. unfold add_page. now rewrite E. Qed.

Lemma OnIsFocusedChanged_census (l1 l2 : list PageNode) (p : PageNode)
    (focused : bool) (w : World) :
  IsFocused p <> focused ->
  global_counts_ w = census (l1 ++ p :: l2) ->
  fits_size_t (length (l1 ++ p :: l2)) ->
  exists w',
    exec (OnIsFocusedChanged (with_IsFocused p focused)) w = Ok w' /\
    counted w w' (census (l1 ++ with_IsFocused p focused :: l2))
      (if is_loading p
       then [census (l1 ++ l2);
             census (l1 ++ with_IsFocused p focused :: l2)]
       else []).
Proof.
  intros Hne Hc Hfit. unfold_handler. unfold counted. cbn.
  destruct (is_loading p) eqn:E; unfold is_loading in E; rewrite E.
  - assert (Hold : negb focused = IsFocused p)
      by (revert Hne; destruct focused, (IsFocused p); cbn; congruence).
    rewrite Hc, Hold, (Decrement_census l1 l2 p E Hfit). cbn.
    pose proof (Increment_census l1 l2 (with_IsFocused p focused) E) as Hinc.
    cbn in Hinc. rewrite Hinc
      by (rewrite (length_middle_replace l1 l2 p); exact Hfit).
    eexists. split; [reflexivity|]. cbn. rewrite <- app_assoc. auto.
  - eexists. split; [reflexivity|]. cbn.
    rewrite Hc, app_nil_r, !census_not_loading by exact E. auto.
Qed.

Lemma OnIsVisibleChanged_census (l1 l2 : list PageNode) (p : PageNode)
    (visible : bool) (w : World) :
  IsVisible p <> visible ->
  global_counts_ w = census (l1 ++ p :: l2) ->
  fits_size_t (length (l1 ++ p :: l2)) ->
  exists w',
    exec (OnIsVisibleChanged (with_IsVisible p visible)) w = Ok w' /\
    counted w w' (census (l1 ++ with_IsVisible p visible :: l2))
      (if is_loading p
       then [census (l1 ++ l2);
             census (l1 ++ with_IsVisible p visible :: l2)]
       else []).
Proof.
  intros Hne Hc Hfit. unfold_handler. unfold counted. cbn.
  destruct (is_loading p) eqn:E; unfold is_loading in E; rewrite E.
  - assert (Hold : negb visible = IsVisible p)
      by (revert Hne; destruct visible, (IsVisible p); cbn; congruence).
    rewrite Hc, Hold, (Decrement_census l1 l2 p E Hfit). cbn.
    pose proof (Increment_census l1 l2 (with_IsVisible p visible) E) as Hinc.
    cbn in Hinc. rewrite Hinc
      by (rewrite (length_middle_replace l1 l2 p); exact Hfit).
    eexists. split; [reflexivity|]. cbn. rewrite <- app_assoc. auto.
  - eexists. split; [reflexivity|]. cbn.
    rewrite Hc, app_nil_r, !census_not_loading by exact E. auto.
Qed.

Lemma OnLoadingStateChanged_census (l1 l2 : list PageNode) (p : PageNode)
    (s : LoadingState) (w : World) :
  global_counts_ w = census (l1 ++ p :: l2) ->
  fits_size_t (length (l1 ++ p :: l2)) ->
  exists w',
    exec (OnLoadingStateChanged (with_LoadingState p s) (GetLoadingState p))
      w = Ok w' /\
    counted w w' (census (l1 ++ with_LoadingState p s :: l2))
      (if eqb (StateIsLoading s) (is_loading p) then []
       else [census (l1 ++ with_LoadingState p s :: l2)]).
Proof.
  intros Hc Hfit. unfold_handler. unfold counted. cbn.
  destruct (StateIsLoading s) eqn:Es, (is_loading p) eqn:Ep;
    unfold is_loading in Ep; rewrite Ep; cbn.
  - eexists. split; [reflexivity|]. cbn.
    rewrite Hc, app_nil_r, !census_middle. unfold add_page, is_loading.
    cbn. rewrite Es, Ep. auto.
  - pose proof (Increment_census l1 l2 (with_LoadingState p s) Es) as Hinc.
    cbn in Hinc.
    rewrite Hc, (census_not_loading l1 l2 p Ep), Hinc
      by (rewrite (length_middle_replace l1 l2 p); exact Hfit).
    eexists. split; [reflexivity|]. cbn. auto.
  - rewrite Hc, (Decrement_census l1 l2 p Ep Hfit).
    eexists. split; [reflexivity|]. cbn.
    rewrite (census_not_loading l1 l2 (with_LoadingState p s)) by exact Es.
    auto.
  - eexists. split; [reflexivity|]. cbn.
    rewrite Hc, app_nil_r, !census_not_loading by assumption. auto.
Qed.

End HandlersTrack.

(* ===================================================================== *)
(** * Runs of graph events *)
(* ===================================================================== *)

Section Sequencing.

Lemma exec_bind {A B : Type} (m : M A) (k : A -> M B) (w : World) :
  exec (m ≫= k) w =
    match m w with
    | Ok (a, w1) => exec (k a) w1
    | Fatal => Fatal
    end.
Proof.
  unfold exec, mbind, M_bind. destruct (m w) as [[a w1]|]; reflexivity.
Qed.

Lemma exec_unit (m : M unit) (w w' : World) :
  exec m w = Ok w' -> m w = Ok (tt, w').
Proof.
  unfold exec. destruct (m w) as [[[] w1]|]; congruence.
Qed.

Lemma exec_notify (h : M unit) (w : World) :
  page_node_observer w = true -> exec (notify h) w = exec h w.
Proof. unfold exec, notify. now intros ->. Qed.

End Sequencing.

Section Runs.

(** A property [G] of populations that survives taking pages away, and a
    property [Q] of counts that the census of such a population has. *)
Variable G : list PageNode -> Prop.
Variable Q : LoadingCounts -> Prop.
Hypothesis G_prefix : forall l1 l2, G (l1 ++ l2) -> G l1.
Hypothesis G_remove : forall l1 p l2, G (l1 ++ p :: l2) -> G (l1 ++ l2).
Hypothesis G_census : forall l, G l -> Q (census l).

Lemma trace_within_snoc (w w' : World) (seen : list LoadingCounts) :
  trace_within Q w ->
  counts_trace w' = counts_trace w ++ seen ->
  Forall Q seen ->
  trace_within Q w'.
Proof.
  unfold trace_within. intros Hw -> Hseen. apply Forall_app. auto.
Qed.

(** The loop of [OnPassedToGraph], from a point where the pages [l1] have
    been visited and [l2] are still to come. *)
Lemma attach_loop (l2 : list PageNode) :
  forall (l1 : list PageNode) (w : World),
  global_counts_ w = census l1 ->
  fits_size_t (length (l1 ++ l2)) ->
  G (l1 ++ l2) ->
  trace_within Q w ->
  exists w',
    for_each l2 (fun page_node =>
      when (StateIsLoading (GetLoadingState page_node))
        (on_global_counts
           (IncrementLoadingPageCounts (IsVisible page_node)
                                       (IsFocused page_node)))) w
      = Ok (tt, w') /\
    global_counts_ w' = census (l1 ++ l2) /\
    same_outside_counts w w' /\
    trace_within Q w'.
Proof.
  induction l2 as [|p l2 IH]; intros l1 w Hc Hfit HG Htr.
  - exists w. rewrite app_nil_r. cbn. unfold same_outside_counts.
    repeat split; auto.
  - replace (l1 ++ p :: l2) with ((l1 ++ [p]) ++ l2) in *
      by (rewrite <- app_assoc; reflexivity).
    assert (Hfit1 : fits_size_t (length (l1 ++ [p]))).
    { unfold fits_size_t in *. rewrite !length_app in *. cbn in *. lia. }
    cbn [for_each]. unfold mbind at 1, M_bind at 1, when at 1.
    destruct (StateIsLoading (GetLoadingState p)) eqn:E.
    + pose proof (Increment_census l1 [] p E Hfit1) as Hinc.
      rewrite app_nil_r in Hinc.
      unfold on_global_counts at 1. rewrite Hc, Hinc.
      edestruct (IH (l1 ++ [p])) as (w' & Hrun & Hc' & Hsame & Htr');
        [| exact Hfit | exact HG | | exists w'; split; [exact Hrun|]].
      * reflexivity.
      * apply Forall_app. split; [exact Htr|].
        repeat constructor. exact (G_census _ (G_prefix _ _ HG)).
      * split; [exact Hc'|]. split; [|exact Htr'].
        unfold same_outside_counts in *. cbn in Hsame. exact Hsame.
    + unfold mret, M_ret.
      edestruct (IH (l1 ++ [p]) w) as (w' & Hrun & Hc' & Hsame & Htr');
        [| exact Hfit | exact HG | exact Htr | exists w'; auto].
      rewrite Hc, census_snoc. unfold add_page, is_loading. now rewrite E.
Qed.

(** [OnPassedToGraph] on an observer that was just constructed: it
    returns, registered, with the census of the graph as its counts and
    one store of the scenario derived from it. *)
Lemma OnPassedToGraph_attached (w : World) :
  global_counts_ w = LoadingCounts_default ->
  global_loading_scenario w = kNoPageLoading ->
  fits_size_t (length (page_nodes w)) ->
  G (page_nodes w) ->
  trace_within Q w ->
  exists w',
    exec OnPassedToGraph w = Ok w' /\
    page_nodes w' = page_nodes w /\
    republished w w' (census (page_nodes w)) /\
    attached Q w'.
Proof.
  intros Hc Hs Hfit HG Htr.
  destruct w as [nodes obs c cell st tr]. cbn in *. subst c cell.
  edestruct (attach_loop nodes [] (mkWorld nodes true LoadingCounts_default
               kNoPageLoading st tr))
    as (w' & Hrun & Hc' & Hsame & Htr'); cbn; auto.
  destruct w' as [nodes' obs' c' cell' st' tr']. cbn in Hc'.
  destruct Hsame as (E1 & E2 & E3 & E4). cbn in E1, E2, E3, E4. subst.
  eexists. split.
  - unfold exec, OnPassedToGraph, mbind, M_bind, AddPageNodeObserver,
      set_page_node_observer, read_global_counts, check,
      GetLoadingScenario_load, GetAllPageNodes.
    cbn -[for_each when on_global_counts UpdateGlobalScenario bool_decide].
    repeat (rewrite bool_decide_eq_true_2 by reflexivity;
            cbn -[for_each when on_global_counts UpdateGlobalScenario
                  bool_decide]).
    rewrite Hrun. reflexivity.
  - cbn. unfold attached, tracks, republished. cbn. auto.
Qed.

Lemma lookup_split (nodes : list PageNode) (i : nat) (p : PageNode) :
  nodes !! i = Some p ->
  exists l1 l2,
    nodes = l1 ++ p :: l2 /\
    delete i nodes = l1 ++ l2 /\
    forall p', <[i := p']> nodes = l1 ++ p' :: l2.
Proof.
  intros Hi. exists (take i nodes), (drop (S i) nodes).
  split; [symmetry; apply take_drop_middle, Hi|].
  split; [apply delete_take_drop|].
  intros p'. apply insert_take_drop. eapply lookup_lt_Some, Hi.
Qed.

Lemma delete_absent (nodes : list PageNode) (i : nat) :
  nodes !! i = None -> delete i nodes = nodes.
Proof.
  intros Hi. apply lookup_ge_None in Hi.
  rewrite delete_take_drop, take_ge, drop_ge, app_nil_r by lia.
  reflexivity.
Qed.

(** The graph writes its pages and then notifies. *)
Lemma set_then_notify (nodes' : list PageNode) (h : M unit) (w : World)
    (seen : list LoadingCounts) :
  attached Q w ->
  (forall w1, global_counts_ w1 = global_counts_ w ->
     exists w', exec h w1 = Ok w' /\ counted w1 w' (census nodes') seen) ->
  Forall Q seen ->
  exists w',
    exec (set_page_nodes nodes' ;; notify h) w = Ok w' /\
    page_nodes w' = nodes' /\
    attached Q w'.
Proof.
  intros (Hobs & Htrk & Htr) Hh Hseen.
  rewrite exec_bind. unfold set_page_nodes. cbn.
  rewrite exec_notify by exact Hobs.
  match goal with
  | |- context [exec h ?w1] =>
      destruct (Hh w1 eq_refl) as (w' & Hrun & Hc & Ht & Hn & Ho)
  end.
  exists w'. cbn in *. split; [exact Hrun|]. split; [exact Hn|].
  split; [congruence|]. split; [unfold tracks; congruence|].
  eapply (trace_within_snoc w); eauto.
Qed.

(** The graph notifies and then writes its pages. *)
Lemma notify_then_set (nodes' : list PageNode) (h : M unit) (w : World)
    (seen : list LoadingCounts) :
  attached Q w ->
  (exists w', exec h w = Ok w' /\ counted w w' (census nodes') seen) ->
  Forall Q seen ->
  exists w',
    exec (notify h ;; set_page_nodes nodes') w = Ok w' /\
    page_nodes w' = nodes' /\
    attached Q w'.
Proof.
  intros (Hobs & Htrk & Htr) (w1 & Hrun & Hc & Ht & Hn & Ho) Hseen.
  rewrite <- (exec_notify h w Hobs) in Hrun. apply exec_unit in Hrun.
  rewrite exec_bind, Hrun. unfold exec, set_page_nodes.
  eexists. split; [reflexivity|]. cbn. split; [reflexivity|].
  unfold attached, tracks. cbn. split; [congruence|]. split; [exact Hc|].
  eapply (trace_within_snoc w); eauto.
Qed.

(** One operation of the graph keeps the observer in step with it. *)
Lemma deliver_attached (e : GraphEvent) (w : World) :
  attached Q w ->
  G (page_nodes w) ->
  G (graph_step e (page_nodes w)) ->
  fits_size_t (length (page_nodes w)) ->
  fits_size_t (length (graph_step e (page_nodes w))) ->
  exists w',
    exec (deliver e) w = Ok w' /\
    page_nodes w' = graph_step e (page_nodes w) /\
    attached Q w'.
Proof.
  intros Hatt HG HG' Hfit Hfit'.
  pose proof Hatt as (Hobs & Htrk & Htr). unfold tracks in Htrk.
  unfold deliver. rewrite exec_bind. unfold GetAllPageNodes.
  destruct e as [p|i|i focused|i visible|i s]; cbn [graph_step] in *.
  - (* AddPageNode *)
    apply set_then_notify with
      (seen := if is_loading p then [census (page_nodes w ++ [p])] else []);
      [exact Hatt| |].
    + intros w1 Hw1. apply OnPageNodeAdded_census; [congruence|exact Hfit'].
    + destruct (is_loading p); repeat constructor; eauto.
  - (* RemovePageNode *)
    destruct (page_nodes w !! i) as [p|] eqn:Hi.
    + destruct (lookup_split _ _ _ Hi) as (l1 & l2 & Hn & Hdel & _).
      rewrite Hdel in *.
      apply notify_then_set with
        (seen := if is_loading p then [census (l1 ++ l2)] else []);
        [exact Hatt| |].
      * apply OnBeforePageNodeRemoved_census; rewrite <- Hn; assumption.
      * destruct (is_loading p); repeat constructor; eauto.
    + exists w. rewrite (delete_absent _ _ Hi). auto.
  - (* SetIsFocused *)
    destruct (page_nodes w !! i) as [p|] eqn:Hi; [|exists w; auto].
    destruct (lookup_split _ _ _ Hi) as (l1 & l2 & Hn & _ & Hins).
    rewrite Hins in *.
    destruct (bool_decide_reflect (IsFocused p = focused)) as [Eq|Ne].
    + exists w. replace (with_IsFocused p focused) with p
        by (destruct p; cbn in *; subst; reflexivity).
      rewrite <- Hn. auto.
    + apply set_then_notify with
        (seen := if is_loading p
                 then [census (l1 ++ l2);
                       census (l1 ++ with_IsFocused p focused :: l2)]
                 else []); [exact Hatt| |].
      * intros w1 Hw1.
        apply OnIsFocusedChanged_census; rewrite <- ?Hn; congruence.
      * rewrite Hn in HG.
        destruct (is_loading p); repeat constructor; eauto.
  - (* SetIsVisible *)
    destruct (page_nodes w !! i) as [p|] eqn:Hi; [|exists w; auto].
    destruct (lookup_split _ _ _ Hi) as (l1 & l2 & Hn & _ & Hins).
    rewrite Hins in *.
    destruct (bool_decide_reflect (IsVisible p = visible)) as [Eq|Ne].
    + exists w. replace (with_IsVisible p visible) with p
        by (destruct p; cbn in *; subst; reflexivity).
      rewrite <- Hn. auto.
    + apply set_then_notify with
        (seen := if is_loading p
                 then [census (l1 ++ l2);
                       census (l1 ++ with_IsVisible p visible :: l2)]
                 else []); [exact Hatt| |].
      * intros w1 Hw1.
        apply OnIsVisibleChanged_census; rewrite <- ?Hn; congruence.
      * rewrite Hn in HG.
        destruct (is_loading p); repeat constructor; eauto.
  - (* SetLoadingState *)
    destruct (page_nodes w !! i) as [p|] eqn:Hi; [|exists w; auto].
    destruct (lookup_split _ _ _ Hi) as (l1 & l2 & Hn & _ & Hins).
    rewrite Hins in *.
    destruct (bool_decide_reflect (GetLoadingState p = s)) as [Eq|Ne].
    + exists w. replace (with_LoadingState p s) with p
        by (destruct p; cbn in *; subst; reflexivity).
      rewrite <- Hn. auto.
    + apply set_then_notify with
        (seen := if eqb (StateIsLoading s) (is_loading p) then []
                 else [census (l1 ++ with_LoadingState p s :: l2)]);
        [exact Hatt| |].
      * intros w1 Hw1.
        apply OnLoadingStateChanged_census; rewrite <- ?Hn; congruence.
      * destruct (eqb _ _); repeat constructor; eauto.
Qed.

Lemma graphs_along_head (events : list GraphEvent) (nodes : list PageNode) :
  exists rest, graphs_along events nodes = nodes :: rest.
Proof. destruct events; cbn; eauto. Qed.

Lemma Forall_graphs_along_head (P : list PageNode -> Prop)
    (events : list GraphEvent) (nodes : list PageNode) :
  Forall P (graphs_along events nodes) -> P nodes.
Proof.
  destruct (graphs_along_head events nodes) as [rest ->].
  intros H. apply Forall_cons in H. tauto.
Qed.

(** A run of graph operations keeps the observer in step with the graph,
    as long as every graph on the way satisfies [G]. *)
Lemma events_attached (events : list GraphEvent) :
  forall w : World,
  attached Q w ->
  Forall G (graphs_along events (page_nodes w)) ->
  Forall graph_fits (graphs_along events (page_nodes w)) ->
  exists w',
    exec (for_each events deliver) w = Ok w' /\
    attached Q w' /\
    G (page_nodes w').
Proof.
  induction events as [|e events IH]; intros w Hatt HG Hfit.
  - exists w. apply Forall_graphs_along_head in HG.
    split; [reflexivity|]. split; assumption.
  - cbn [graphs_along] in HG, Hfit.
    apply Forall_cons in HG as [HG HGs].
    apply Forall_cons in Hfit as [Hfit Hfits].
    destruct (deliver_attached e w Hatt HG) as (w1 & Hrun1 & Hn1 & Hatt1).
    { exact (Forall_graphs_along_head _ _ _ HGs). }
    { exact Hfit. }
    { exact (Forall_graphs_along_head _ _ _ Hfits). }
    destruct (IH w1 Hatt1) as (w' & Hrun & Hatt' & HGw').
    { rewrite Hn1. exact HGs. }
    { rewrite Hn1. exact Hfits. }
    exists w'. split; [|auto].
    cbn [for_each]. rewrite exec_bind, (exec_unit _ _ _ Hrun1). exact Hrun.
Qed.

(** The same from the start: the observer is passed to a graph that
    satisfies [G] and the graph goes through [events]. *)
Lemma run_attached (nodes : list PageNode) (events : list GraphEvent) :
  Forall G (graphs_along events nodes) ->
  Forall graph_fits (graphs_along events nodes) ->
  exists w',
    exec (run events) (initial_world nodes) = Ok w' /\
    attached Q w' /\
    G (page_nodes w').
Proof.
  intros HG Hfit.
  destruct (OnPassedToGraph_attached (initial_world nodes))
    as (w1 & Hrun1 & Hn1 & _ & Hatt1); try reflexivity.
  { exact (Forall_graphs_along_head _ _ _ Hfit). }
  { exact (Forall_graphs_along_head _ _ _ HG). }
  { constructor. }
  cbn in Hn1.
  destruct (events_attached events w1 Hatt1) as (w' & Hrun & Hatt' & HGw').
  { rewrite Hn1. exact HG. }
  { rewrite Hn1. exact Hfit. }
  exists w'. split; [|auto].
  unfold run. rewrite exec_bind, (exec_unit _ _ _ Hrun1). exact Hrun.
Qed.

End Runs.

(* ===================================================================== *)
(** * Attaching to a population, and the nesting of the counts *)
(* ===================================================================== *)

Section Population.
Local Open Scope Z_scope.

Lemma Forall_focus_prefix (l1 l2 : list PageNode) :
  Forall loading_focus_implies_visible (l1 ++ l2) ->
  Forall loading_focus_implies_visible l1.
Proof. intros H. apply Forall_app in H. tauto. Qed.

Lemma Forall_focus_remove (l1 : list PageNode) (p : PageNode)
    (l2 : list PageNode) :
  Forall loading_focus_implies_visible (l1 ++ p :: l2) ->
  Forall loading_focus_implies_visible (l1 ++ l2).
Proof.
  intros H. apply Forall_app in H as [H1 H2].
  apply Forall_cons in H2 as [_ H2]. apply Forall_app. tauto.
Qed.

(** For every population and every run of graph operations, the visible
    and the focused counter stay within the loading counter after every
    operation on the counts. *)
Lemma counts_within_loading_along_run (nodes : list PageNode)
    (events : list GraphEvent) :
  Forall graph_fits (graphs_along events nodes) ->
  exists w',
    exec (run events) (initial_world nodes) = Ok w' /\
    Forall (fun c => focused_loading_pages_ c <= loading_pages_ c /\
                     visible_loading_pages_ c <= loading_pages_ c)
      (counts_trace w').
Proof.
  intros Hfit.
  destruct (run_attached (fun _ => True)
              (fun c => focused_loading_pages_ c <= loading_pages_ c /\
                        visible_loading_pages_ c <= loading_pages_ c)
              (fun _ _ _ => I) (fun _ _ _ _ => I)
              (fun l _ => census_within_loading l) nodes events)
    as (w' & Hrun & (_ & _ & Htr) & _).
  - apply Forall_forall. auto.
  - exact Hfit.
  - exists w'. auto.
Qed.

(** C5. [OnPassedToGraph] on zeroed counts and a published
    [kNoPageLoading], over a population whose size fits [size_t], returns
    with [loading_pages_] the number of pages that satisfy the loading
    predicate, [visible_loading_pages_] the number of those that are
    visible and [focused_loading_pages_] the number of those that are
    focused, and stores the scenario derived from these counts exactly
    once.  For the four pages idle, idle, loading visible and loading
    visible focused the counts are loading 2, visible 2, focused 1 and
    the one scenario stored is [kFocusedPageLoading]. *)
Theorem OnPassedToGraph_counts_population :
  (forall w : World,
     global_counts_ w = LoadingCounts_default ->
     global_loading_scenario w = kNoPageLoading ->
     fits_size_t (length (page_nodes w)) ->
     exists w',
       exec OnPassedToGraph w = Ok w' /\
       loading_pages_ (global_counts_ w')
         = count_pages is_loading (page_nodes w) /\
       visible_loading_pages_ (global_counts_ w')
         = count_pages (fun p => is_loading p && IsVisible p)
             (page_nodes w) /\
       focused_loading_pages_ (global_counts_ w')
         = count_pages (fun p => is_loading p && IsFocused p)
             (page_nodes w) /\
       global_loading_scenario w' = GetScenario (global_counts_ w') /\
       scenario_stores w'
         = scenario_stores w ++ [GetScenario (global_counts_ w')]) /\
  (exists w',
     exec OnPassedToGraph (initial_world four_pages) = Ok w' /\
     global_counts_ w' = {| focused_loading_pages_ := 1;
                            visible_loading_pages_ := 2;
                            loading_pages_ := 2 |} /\
     global_loading_scenario w' = kFocusedPageLoading /\
     scenario_stores w' = [kFocusedPageLoading]).
Proof.
  split.
  - intros w Hc Hs Hfit.
    destruct (OnPassedToGraph_attached (fun _ => True) (fun _ => True)
                (fun _ _ _ => I) (fun _ _ => I) w Hc Hs Hfit I)
      as (w' & Hrun & _ & (Hc' & Hs' & Hst') & _).
    { apply Forall_forall. auto. }
    exists w'. rewrite Hc', Hs', Hst'. unfold census. cbn.
    repeat split; first [exact Hrun | reflexivity].
  - eexists. split; [vm_compute; reflexivity|]. cbn. auto.
Qed.

(** The general statement at the four pages of the example. *)
Lemma OnPassedToGraph_counts_population_witness :
  exists w',
    exec OnPassedToGraph (initial_world four_pages) = Ok w' /\
    loading_pages_ (global_counts_ w') = 2 /\
    visible_loading_pages_ (global_counts_ w') = 2 /\
    focused_loading_pages_ (global_counts_ w') = 1 /\
    global_loading_scenario w' = GetScenario (global_counts_ w') /\
    scenario_stores w' = [] ++ [GetScenario (global_counts_ w')].
Proof.
  apply (proj1 OnPassedToGraph_counts_population (initial_world four_pages)).
  - reflexivity.
  - reflexivity.
  - unfold fits_size_t, SIZE_MAX. cbn. lia.
Defined.

(** C2, as stated, fails.  As in the unit test [FocusedAndVisible], a
    page starts loading and then becomes focused while it still reports
    that it is not visible: the counts end as focused 1, visible 0,
    loading 1. *)
Lemma focused_not_visible_breaks_nesting :
  exists w',
    exec (run [SetLoadingState 0 kLoading; SetIsFocused 0 true])
      (initial_world [idle_page]) = Ok w' /\
    global_counts_ w' = {| focused_loading_pages_ := 1;
                           visible_loading_pages_ := 0;
                           loading_pages_ := 1 |} /\
    In (global_counts_ w') (counts_trace w') /\
    ~ counts_nested (global_counts_ w').
Proof.
  eexists. split; [vm_compute; reflexivity|].
  split; [reflexivity|]. split.
  - cbn. auto.
  - unfold counts_nested. cbn. lia.
Qed.

End Population.


(* ===================================================================== *)
(** * Further properties of the counting core *)
(* ===================================================================== *)

Section CountingCoreComposition.
Local Open Scope Z_scope.

(** A successful increment tells which counters were below the maximum. *)
Lemma Increment_inv (visible focused : bool) (c c1 : LoadingCounts) :
  counts_in_range c ->
  IncrementLoadingPageCounts visible focused c = Ok c1 ->
  loading_pages_ c < SIZE_MAX /\
  (visible = true -> visible_loading_pages_ c < SIZE_MAX) /\
  (focused = true -> focused_loading_pages_ c < SIZE_MAX) /\
  c1 = {| focused_loading_pages_ := bump focused (focused_loading_pages_ c);
          visible_loading_pages_ := bump visible (visible_loading_pages_ c);
          loading_pages_ := loading_pages_ c + 1 |}.
Proof.
  intros (Hf & Hv & Hl) Hinc. unfold IncrementLoadingPageCounts in Hinc.
  destruct (CheckIncrement_cases _ Hl) as [[_ El]|[Hl' El]];
    rewrite El in Hinc; cbn in Hinc; [discriminate|].
  destruct visible; cbn in Hinc.
  - destruct (CheckIncrement_cases _ Hv) as [[_ Ev]|[Hv' Ev]];
      rewrite Ev in Hinc; cbn in Hinc; [discriminate|].
    destruct focused; cbn in Hinc.
    + destruct (CheckIncrement_cases _ Hf) as [[_ Ef]|[Hf' Ef]];
        rewrite Ef in Hinc; cbn in Hinc; [discriminate|].
      injection Hinc as <-. auto.
    + injection Hinc as <-. repeat split; auto; discriminate.
  - destruct focused; cbn in Hinc.
    + destruct (CheckIncrement_cases _ Hf) as [[_ Ef]|[Hf' Ef]];
        rewrite Ef in Hinc; cbn in Hinc; [discriminate|].
      injection Hinc as <-. repeat split; auto; discriminate.
    + injection Hinc as <-. repeat split; auto; discriminate.
Qed.

Lemma drop1_bump (touched : bool) (n : Z) : drop1 touched (bump touched n) = n.
Proof. destruct touched; cbn; lia. Qed.

Lemma bump_drop1 (touched : bool) (n : Z) : bump touched (drop1 touched n) = n.
Proof. destruct touched; cbn; lia. Qed.

(** X1. On counts that are [size_t] values, an
    [IncrementLoadingPageCounts(visible, focused)] that returns is undone
    by [DecrementLoadingPageCounts] with the same flags, which then returns
    the counts as they were; and the other way round. *)
Theorem Increment_Decrement_round_trip (visible focused : bool)
    (c : LoadingCounts) :
  counts_in_range c ->
  (forall c1, IncrementLoadingPageCounts visible focused c = Ok c1 ->
     DecrementLoadingPageCounts visible focused c1 = Ok c) /\
  (forall c1, DecrementLoadingPageCounts visible focused c = Ok c1 ->
     IncrementLoadingPageCounts visible focused c1 = Ok c).
Proof.
  intros Hc. pose proof Hc as (Rf & Rv & Rl). unfold is_size_t in Rf, Rv, Rl.
  split; intros c1 H.
  - destruct (Increment_inv _ _ _ _ Hc H) as (Hl & Hv & Hf & ->).
    rewrite Decrement_ok; cbn.
    + rewrite !drop1_bump. destruct c; cbn. do 2 f_equal. lia.
    + lia.
    + intros E. specialize (Hv E). rewrite E. cbn. lia.
    + intros E. specialize (Hf E). rewrite E. cbn. lia.
  - destruct (Decrement_inv _ _ _ _ Hc H) as (Hl & Hv & Hf & ->).
    rewrite Increment_ok; cbn.
    + rewrite !bump_drop1. destruct c; cbn. do 2 f_equal. lia.
    + lia.
    + intros E. specialize (Hv E). rewrite E. cbn. lia.
    + intros E. specialize (Hf E). rewrite E. cbn. lia.
Qed.

(** The round trip at the counts of one visible loading page, for a second
    page that is visible and focused. *)
Lemma Increment_Decrement_round_trip_witness :
  DecrementLoadingPageCounts true true (mkLoadingCounts 1 2 2)
    = Ok counts_one_visible.
Proof.
  assert (H : counts_in_range counts_one_visible).
  { unfold counts_in_range, is_size_t, counts_one_visible, SIZE_MAX.
    cbn. lia. }
  apply (proj1 (Increment_Decrement_round_trip true true _ H)).
  vm_compute. reflexivity.
Defined.

(** X2. After an [IncrementLoadingPageCounts] that returns, [GetScenario]
    is never [kNoPageLoading]; it is [kFocusedPageLoading] when the page
    counted in is focused, and [kVisiblePageLoading] when it is visible,
    not focused, and no focused page was counted before; a page that is
    neither leaves the scenario as it was, except that [kNoPageLoading]
    becomes [kBackgroundPageLoading]. *)
Theorem Increment_raises_scenario (visible focused : bool)
    (c c1 : LoadingCounts) :
  counts_in_range c ->
  IncrementLoadingPageCounts visible focused c = Ok c1 ->
  GetScenario c1 <> kNoPageLoading /\
  (focused = true -> GetScenario c1 = kFocusedPageLoading) /\
  (focused = false -> visible = true -> focused_loading_pages_ c = 0 ->
     GetScenario c1 = kVisiblePageLoading) /\
  (focused = false -> visible = false -> GetScenario c1 = GetScenario c \/
     (GetScenario c = kNoPageLoading /\
      GetScenario c1 = kBackgroundPageLoading)).
Proof.
  intros Hc H. pose proof Hc as (Rf & Rv & Rl).
  unfold is_size_t in Rf, Rv, Rl.
  destruct (Increment_inv _ _ _ _ Hc H) as (Hl & Hv & Hf & ->).
  unfold GetScenario. cbn.
  destruct visible, focused; cbn;
    repeat match goal with
    | |- context [0 <? ?x] => destruct (Z.ltb_spec 0 x)
    end;
    repeat split; intros; try discriminate; try lia; auto.
Qed.

(** The statement at empty counts and a focused page that is not
    visible. *)
Lemma Increment_raises_scenario_witness :
  GetScenario (mkLoadingCounts 1 0 1) = kFocusedPageLoading.
Proof.
  assert (H : counts_in_range LoadingCounts_default).
  { unfold counts_in_range, is_size_t, LoadingCounts_default, SIZE_MAX.
    cbn. lia. }
  apply (proj1 (proj2 (Increment_raises_scenario false true
                         LoadingCounts_default _ H eq_refl)) eq_refl).
Defined.

End CountingCoreComposition.

(* ===================================================================== *)
(** * Further properties of the notification handlers *)
(* ===================================================================== *)

Section HandlerOutcomes.
Local Open Scope Z_scope.

(** What every handler that returns has done: it left the graph and the
    registration alone, and either changed nothing at all or ended with a
    single store of the scenario of the counts it leaves. *)
Lemma handle_outcome (n : Notification) (w w' : World) :
  exec (handle n) w = Ok w' ->
  page_nodes w' = page_nodes w /\
  page_node_observer w' = page_node_observer w /\
  (w' = w \/
   (scenario_stores w'
      = scenario_stores w ++ [GetScenario (global_counts_ w')] /\
    global_loading_scenario w' = GetScenario (global_counts_ w'))).
Proof.
  destruct w as [nodes obs c cell st tr].
  destruct n as [p|p|p|p|p prev]; cbn [handle]; unfold_handler; cbn.
  - destruct (StateIsLoading (GetLoadingState p)); cbn;
      [destruct (IncrementLoadingPageCounts _ _ c); cbn|];
      intros H; inversion H; subst; cbn; auto.
  - destruct (StateIsLoading (GetLoadingState p)); cbn;
      [destruct (DecrementLoadingPageCounts _ _ c); cbn|];
      intros H; inversion H; subst; cbn; auto.
  - destruct (StateIsLoading (GetLoadingState p)); cbn;
      [destruct (DecrementLoadingPageCounts _ _ c) as [c1|]; cbn;
       [destruct (IncrementLoadingPageCounts _ _ c1); cbn|]|];
      intros H; inversion H; subst; cbn; auto.
  - destruct (StateIsLoading (GetLoadingState p)); cbn;
      [destruct (DecrementLoadingPageCounts _ _ c) as [c1|]; cbn;
       [destruct (IncrementLoadingPageCounts _ _ c1); cbn|]|];
      intros H; inversion H; subst; cbn; auto.
  - destruct (StateIsLoading (GetLoadingState p)), (StateIsLoading prev);
      cbn;
      try destruct (IncrementLoadingPageCounts _ _ c); cbn;
      try destruct (DecrementLoadingPageCounts _ _ c); cbn;
      intros H; inversion H; subst; cbn; auto.
Qed.

(** X3. A handler never publishes an intermediate state: whichever of the
    five notifications it is, a handler that returns has stored to the
    published cell at most once, and when it has, the value stored is the
    scenario of the counts it leaves, which the cell then holds. *)
Theorem handlers_store_at_most_once (n : Notification) (w w' : World) :
  exec (handle n) w = Ok w' ->
  (scenario_stores w' = scenario_stores w /\
   global_loading_scenario w' = global_loading_scenario w /\
   global_counts_ w' = global_counts_ w) \/
  (scenario_stores w'
     = scenario_stores w ++ [GetScenario (global_counts_ w')] /\
   global_loading_scenario w' = GetScenario (global_counts_ w')).
Proof.
  intros H. destruct (handle_outcome n w w' H) as (_ & _ & [->|Hstore]).
  - left. auto.
  - right. exact Hstore.
Qed.

(** The statement for a focus change of the only loading page, which
    passes through empty counts on the way. *)
Lemma handlers_store_at_most_once_witness :
  exists w',
    exec (OnIsFocusedChanged (mkPageNode kLoading false true))
      (mkWorld [] true counts_one_background kBackgroundPageLoading [] [])
      = Ok w' /\
    scenario_stores w' = [GetScenario (global_counts_ w')] /\
    counts_trace w' = [LoadingCounts_default; mkLoadingCounts 1 0 1].
Proof.
  eexists. split; [vm_compute; reflexivity|].
  split; [|reflexivity].
  destruct (handlers_store_at_most_once
              (IsFocusedChanged (mkPageNode kLoading false true))
              (mkWorld [] true counts_one_background kBackgroundPageLoading
                 [] [])
              _ eq_refl) as [(H & _)|(H & _)].
  - discriminate H.
  - exact H.
Defined.

End HandlerOutcomes.

Section HandlerEffects.
Local Open Scope Z_scope.

(** X4. [OnIsVisibleChanged] for a page that satisfies the loading
    predicate, on counts in which its decrement with the old visibility
    does not underflow and, for a page that became visible, the visible
    counter is below the maximum: the handler returns, [loading_pages_] and
    [focused_loading_pages_] are as before, [visible_loading_pages_] moved
    by +1 for a page that became visible and by -1 for one that became
    hidden, and the scenario of the new counts is stored once. *)
Theorem OnIsVisibleChanged_moves_visible_only (page_node : PageNode)
    (w : World) (c1 : LoadingCounts) :
  StateIsLoading (GetLoadingState page_node) = true ->
  counts_in_range (global_counts_ w) ->
  DecrementLoadingPageCounts (negb (IsVisible page_node))
    (IsFocused page_node) (global_counts_ w) = Ok c1 ->
  (IsVisible page_node = true ->
   visible_loading_pages_ (global_counts_ w) < SIZE_MAX) ->
  exists w',
    exec (OnIsVisibleChanged page_node) w = Ok w' /\
    loading_pages_ (global_counts_ w') = loading_pages_ (global_counts_ w) /\
    focused_loading_pages_ (global_counts_ w')
      = focused_loading_pages_ (global_counts_ w) /\
    visible_loading_pages_ (global_counts_ w')
      = visible_loading_pages_ (global_counts_ w)
        + (if IsVisible page_node then 1 else -1) /\
    republished w w' (global_counts_ w') /\
    counts_trace w' = counts_trace w ++ [c1; global_counts_ w'].
Proof.
  intros E Hc Hdec Hroom.
  destruct (Decrement_inv _ _ _ _ Hc Hdec) as (Hl & Hv & Hf & Ec1).
  pose proof Hc as (Rf & Rv & Rl). unfold is_size_t in Rf, Rv, Rl.
  assert (Hinc : IncrementLoadingPageCounts (IsVisible page_node)
                   (IsFocused page_node) c1
                 = Ok {| focused_loading_pages_ :=
                           focused_loading_pages_ (global_counts_ w);
                         visible_loading_pages_ :=
                           visible_loading_pages_ (global_counts_ w)
                           + (if IsVisible page_node then 1 else -1);
                         loading_pages_ :=
                           loading_pages_ (global_counts_ w) |}).
  { subst c1. rewrite Increment_ok; cbn.
    - rewrite bump_drop1. f_equal. f_equal; [|lia].
      destruct (IsVisible page_node); cbn; lia.
    - lia.
    - intros Ev. rewrite Ev in *. cbn. specialize (Hroom eq_refl). lia.
    - intros Ef. rewrite Ef in *. cbn. specialize (Hf eq_refl). lia. }
  unfold_handler. rewrite E, Hdec. cbn. rewrite Hinc.
  eexists. split; [reflexivity|]. cbn. rewrite <- app_assoc. cbn.
  repeat split; reflexivity.
Qed.

(** The statement for the only loading page, which was in the background
    and became visible. *)
Lemma OnIsVisibleChanged_moves_visible_only_witness :
  exists w',
    exec (OnIsVisibleChanged (mkPageNode kLoading true false))
      (mkWorld [] true counts_one_background kBackgroundPageLoading [] [])
      = Ok w' /\
    global_counts_ w' = counts_one_visible /\
    global_loading_scenario w' = kVisiblePageLoading.
Proof.
  destruct (OnIsVisibleChanged_moves_visible_only
              (mkPageNode kLoading true false)
              (mkWorld [] true counts_one_background kBackgroundPageLoading
                 [] [])
              LoadingCounts_default)
    as (w' & Hrun & Hl & Hf & Hv & (_ & Hs & _) & _).
  - reflexivity.
  - unfold counts_in_range, is_size_t, counts_one_background, SIZE_MAX.
    cbn. lia.
  - vm_compute. reflexivity.
  - intros _. unfold counts_one_background, SIZE_MAX. cbn. lia.
  - exists w'. split; [exact Hrun|]. rewrite Hs.
    destruct (global_counts_ w') as [f v l].
    cbn in Hl, Hf, Hv. rewrite Hl, Hf, Hv. split; reflexivity.
Defined.

(** X5. A notification about a loading page that was never counted is
    fatal: with [loading_pages_] at zero, [OnBeforePageNodeRemoved],
    [OnIsFocusedChanged] and [OnIsVisibleChanged] for a page that satisfies
    the loading predicate, and [OnLoadingStateChanged] for a page that
    stopped satisfying it, hit the check of [CheckDecrement]. *)
Theorem uncounted_page_is_fatal (page_node : PageNode)
    (previous_state : LoadingState) (w : World) :
  loading_pages_ (global_counts_ w) = 0 ->
  (StateIsLoading (GetLoadingState page_node) = true ->
     exec (OnBeforePageNodeRemoved page_node) w = Fatal /\
     exec (OnIsFocusedChanged page_node) w = Fatal /\
     exec (OnIsVisibleChanged page_node) w = Fatal) /\
  (StateIsLoading (GetLoadingState page_node) = false ->
   StateIsLoading previous_state = true ->
     exec (OnLoadingStateChanged page_node previous_state) w = Fatal).
Proof.
  intros Hz.
  assert (Hdec : forall visible focused,
            DecrementLoadingPageCounts visible focused (global_counts_ w)
            = Fatal).
  { intros visible focused. unfold DecrementLoadingPageCounts.
    rewrite (CheckDecrement_at_zero (loading_pages_ (global_counts_ w)))
      by lia.
    reflexivity. }
  split.
  - intros E. repeat split; unfold_handler; rewrite E, Hdec; reflexivity.
  - intros E1 E2. unfold_handler. rewrite E1, E2. cbn. rewrite Hdec.
    reflexivity.
Qed.

(** The statement at the world of an empty graph. *)
Lemma uncounted_page_is_fatal_witness :
  exec (OnBeforePageNodeRemoved background_loading_page) (initial_world [])
    = Fatal.
Proof.
  apply (proj1 (uncounted_page_is_fatal background_loading_page kLoading
                  (initial_world []) eq_refl)).
  reflexivity.
Defined.

(** X6. Removal undoes addition.  On counts that are [size_t] values, when
    [OnPageNodeAdded] for a page returns, [OnBeforePageNodeRemoved] for the
    same page returns as well, with the counts as they were before the
    page was added and their scenario in the published cell. *)
Theorem added_then_removed_restores (page_node : PageNode) (w w1 : World) :
  counts_in_range (global_counts_ w) ->
  exec (OnPageNodeAdded page_node) w = Ok w1 ->
  exists w2,
    exec (OnBeforePageNodeRemoved page_node) w1 = Ok w2 /\
    global_counts_ w2 = global_counts_ w /\
    global_loading_scenario w2 = GetScenario (global_counts_ w).
Proof.
  intros Hc. pose proof Hc as (Rf & Rv & Rl). unfold is_size_t in Rf, Rv, Rl.
  unfold_handler.
  destruct (StateIsLoading (GetLoadingState page_node)) eqn:E.
  - destruct (IncrementLoadingPageCounts _ _ (global_counts_ w)) as [c1|]
      eqn:Hinc; [|discriminate].
    destruct (Increment_inv _ _ _ _ Hc Hinc) as (Hl & Hv & Hf & Ec1).
    cbn. intros H. injection H as <-. cbn.
    assert (Hdec : DecrementLoadingPageCounts (IsVisible page_node)
                     (IsFocused page_node) c1 = Ok (global_counts_ w)).
    { subst c1. rewrite Decrement_ok; cbn.
      - rewrite !drop1_bump. destruct (global_counts_ w); cbn.
        do 2 f_equal. lia.
      - lia.
      - intros Ev. specialize (Hv Ev). rewrite Ev. cbn. lia.
      - intros Ef. specialize (Hf Ef). rewrite Ef. cbn. lia. }
    rewrite Hdec. eexists. split; [reflexivity|]. cbn. auto.
  - cbn. intros H. injection H as <-. eexists. split; [reflexivity|].
    cbn. auto.
Qed.

(** The statement for a background loading page added to an empty
    graph. *)
Lemma added_then_removed_restores_witness :
  exists w2,
    exec (OnBeforePageNodeRemoved background_loading_page)
      (mkWorld [] false counts_one_background kBackgroundPageLoading
         [kBackgroundPageLoading] [counts_one_background]) = Ok w2 /\
    global_counts_ w2 = LoadingCounts_default /\
    global_loading_scenario w2 = kNoPageLoading.
Proof.
  apply (added_then_removed_restores background_loading_page
           (initial_world [])).
  - unfold counts_in_range, is_size_t, SIZE_MAX. cbn. lia.
  - vm_compute. reflexivity.
Defined.

End HandlerEffects.

(* ===================================================================== *)
(** * Further properties of runs of graph events *)
(* ===================================================================== *)

Section PublishedCell.

Lemma synced_same (w w' : World) :
  global_counts_ w' = global_counts_ w ->
  global_loading_scenario w' = global_loading_scenario w ->
  synced w -> synced w'.
Proof. unfold synced. intros -> ->. auto. Qed.

Lemma handle_synced (n : Notification) (w w' : World) :
  exec (handle n) w = Ok w' -> synced w -> synced w'.
Proof.
  intros H Hs. destruct (handle_outcome n w w' H) as (_ & _ & [->|[_ Hc]]).
  - exact Hs.
  - exact Hc.
Qed.

Lemma notify_synced (n : Notification) (w w' : World) :
  exec (notify (handle n)) w = Ok w' -> synced w -> synced w'.
Proof.
  unfold notify, exec at 1. destruct (page_node_observer w).
  - apply handle_synced.
  - intros H. injection H as <-. auto.
Qed.

Lemma set_then_notify_synced (nodes' : list PageNode) (n : Notification)
    (w w' : World) :
  exec (set_page_nodes nodes' ;; notify (handle n)) w = Ok w' ->
  synced w -> synced w'.
Proof.
  rewrite exec_bind. unfold set_page_nodes. intros H Hs.
  apply (notify_synced _ _ _ H). revert Hs. apply synced_same; reflexivity.
Qed.

Lemma notify_then_set_synced (nodes' : list PageNode) (n : Notification)
    (w w' : World) :
  exec (notify (handle n) ;; set_page_nodes nodes') w = Ok w' ->
  synced w -> synced w'.
Proof.
  rewrite exec_bind.
  destruct (notify (handle n) w) as [[[] w1]|] eqn:E; [|discriminate].
  unfold exec, set_page_nodes. intros H Hs. injection H as <-.
  assert (Hs1 : synced w1).
  { apply (notify_synced n w); [|exact Hs]. unfold exec. now rewrite E. }
  revert Hs1. apply synced_same; reflexivity.
Qed.

(** One operation of the graph leaves the published cell in step with the
    counts. *)
Lemma deliver_synced (e : GraphEvent) (w w' : World) :
  exec (deliver e) w = Ok w' -> synced w -> synced w'.
Proof.
  unfold deliver. rewrite exec_bind. unfold GetAllPageNodes.
  destruct e as [p|i|i focused|i visible|i s].
  - apply (set_then_notify_synced _ (PageNodeAdded p)).
  - destruct (page_nodes w !! i) as [p|].
    + apply (notify_then_set_synced _ (BeforePageNodeRemoved p)).
    + intros H. injection H as <-. auto.
  - destruct (page_nodes w !! i) as [p|];
      [destruct (bool_decide (IsFocused p = focused))|];
      try (intros H; injection H as <-; auto).
    apply (set_then_notify_synced _
             (IsFocusedChanged (with_IsFocused p focused))).
  - destruct (page_nodes w !! i) as [p|];
      [destruct (bool_decide (IsVisible p = visible))|];
      try (intros H; injection H as <-; auto).
    apply (set_then_notify_synced _
             (IsVisibleChanged (with_IsVisible p visible))).
  - destruct (page_nodes w !! i) as [p|];
      [destruct (bool_decide (GetLoadingState p = s))|];
      try (intros H; injection H as <-; auto).
    apply (set_then_notify_synced _
             (LoadingStateChanged (with_LoadingState p s)
                                  (GetLoadingState p))).
Qed.

Lemma any_trace (w : World) : trace_within (fun _ => True) w.
Proof. apply Forall_forall. auto. Qed.

(** A run of graph operations, from a world in which the observer is in
    step with the graph. *)
Lemma events_track (events : list GraphEvent) :
  forall w : World,
  page_node_observer w = true ->
  tracks w ->
  synced w ->
  Forall graph_fits (graphs_along events (page_nodes w)) ->
  exists w',
    exec (for_each events deliver) w = Ok w' /\
    page_nodes w' = graph_after events (page_nodes w) /\
    page_node_observer w' = true /\
    tracks w' /\
    synced w'.
Proof.
  induction events as [|e events IH]; intros w Hobs Htrk Hs Hfit.
  - exists w. repeat split; auto.
  - cbn [graphs_along] in Hfit. apply Forall_cons in Hfit as [Hfit Hfits].
    destruct (deliver_attached (fun _ => True) (fun _ => True)
                (fun _ _ _ _ => I) (fun _ _ => I) e w)
      as (w1 & Hrun1 & Hn1 & (Hobs1 & Htrk1 & _)); auto.
    { split; [exact Hobs|]. split; [exact Htrk|]. apply any_trace. }
    { exact (Forall_graphs_along_head _ _ _ Hfits). }
    pose proof (deliver_synced e w w1 Hrun1 Hs) as Hs1.
    destruct (IH w1 Hobs1 Htrk1 Hs1) as (w' & Hrun & Hn & Hrest).
    { rewrite Hn1. exact Hfits. }
    exists w'. split.
    + cbn [for_each]. rewrite exec_bind, (exec_unit _ _ _ Hrun1). exact Hrun.
    + split; [|exact Hrest]. rewrite Hn, Hn1. reflexivity.
Qed.

(** The same from the start: after any run, the graph is where its
    operations took it, the counts are its census and the published cell
    holds the scenario of that census. *)
Lemma run_tracks (nodes : list PageNode) (events : list GraphEvent) :
  Forall graph_fits (graphs_along events nodes) ->
  exists w',
    exec (run events) (initial_world nodes) = Ok w' /\
    page_nodes w' = graph_after events nodes /\
    global_counts_ w' = census (graph_after events nodes) /\
    global_loading_scenario w'
      = GetScenario (census (graph_after events nodes)).
Proof.
  intros Hfit.
  destruct (OnPassedToGraph_attached (fun _ => True) (fun _ => True)
              (fun _ _ _ => I) (fun _ _ => I) (initial_world nodes))
    as (w1 & Hrun1 & Hn1 & (Hc1 & Hs1 & _) & (Hobs1 & Htrk1 & _));
    try reflexivity; auto.
  { exact (Forall_graphs_along_head _ _ _ Hfit). }
  { apply any_trace. }
  cbn in Hn1.
  destruct (events_track events w1 Hobs1 Htrk1) as
    (w' & Hrun & Hn & _ & Htrk & Hs).
  { unfold synced. rewrite Hs1, Hc1. reflexivity. }
  { rewrite Hn1. exact Hfit. }
  exists w'. rewrite Hn1 in Hn. unfold tracks, synced in *.
  split; [|split; [exact Hn|split; congruence]].
  unfold run. rewrite exec_bind, (exec_unit _ _ _ Hrun1). exact Hrun.
Qed.

End PublishedCell.

Section ScenarioOfPopulation.
Local Open Scope Z_scope.

Lemma count_pages_pos (P : PageNode -> bool) (l : list PageNode) :
  0 < count_pages P l <-> some_page P l.
Proof.
  unfold some_page. induction l as [|q l IH]; cbn [count_pages].
  - split; [lia|]. intros (p & Hin & _). inversion Hin.
  - pose proof (count_pages_bounds P l) as Hb. destruct (P q) eqn:E.
    + split; [|lia]. intros _. exists q. split; [left|exact E].
    + rewrite Z.add_0_l, IH. split.
      * intros (p & Hin & HP). exists p. split; [right; exact Hin|exact HP].
      * intros (p & Hin & HP). apply elem_of_cons in Hin as [->|Hin].
        -- congruence.
        -- exists p. auto.
Qed.

Lemma count_pages_Permutation (P : PageNode -> bool) (l1 l2 : list PageNode) :
  l1 ≡ₚ l2 -> count_pages P l1 = count_pages P l2.
Proof.
  induction 1 as [|x l l' _ IH|x y l|l l' l'' _ IH1 _ IH2]; cbn.
  - reflexivity.
  - rewrite IH. reflexivity.
  - lia.
  - congruence.
Qed.

Lemma census_Permutation (l1 l2 : list PageNode) :
  l1 ≡ₚ l2 -> census l1 = census l2.
Proof.
  intros H. unfold census. f_equal; apply count_pages_Permutation, H.
Qed.

Lemma census_default_iff (l : list PageNode) :
  census l = LoadingCounts_default <-> ~ some_page is_loading l.
Proof.
  rewrite <- count_pages_pos.
  pose proof (census_within_loading l) as [Hf Hv].
  pose proof (count_pages_bounds is_loading l) as Hl.
  pose proof (count_pages_bounds (fun p => is_loading p && IsFocused p) l).
  pose proof (count_pages_bounds (fun p => is_loading p && IsVisible p) l).
  unfold census, LoadingCounts_default in *. cbn in *. split.
  - intros E. injection E as _ _ E. lia.
  - intros Hn. f_equal; lia.
Qed.

(** Which scenario the census of a population has. *)
Lemma GetScenario_census (l : list PageNode) :
  (GetScenario (census l) = kFocusedPageLoading <->
     some_page (fun p => is_loading p && IsFocused p) l) /\
  (GetScenario (census l) = kVisiblePageLoading <->
     ~ some_page (fun p => is_loading p && IsFocused p) l /\
     some_page (fun p => is_loading p && IsVisible p) l) /\
  (GetScenario (census l) = kBackgroundPageLoading <->
     ~ some_page (fun p => is_loading p && IsFocused p) l /\
     ~ some_page (fun p => is_loading p && IsVisible p) l /\
     some_page is_loading l) /\
  (GetScenario (census l) = kNoPageLoading <-> ~ some_page is_loading l).
Proof.
  rewrite <- !count_pages_pos.
  pose proof (census_within_loading l) as [Hf Hv].
  unfold GetScenario, census in *. cbn in *.
  destruct (Z.ltb_spec 0
              (count_pages (fun p => is_loading p && IsFocused p) l));
    destruct (Z.ltb_spec 0
                (count_pages (fun p => is_loading p && IsVisible p) l));
    destruct (Z.ltb_spec 0 (count_pages is_loading l));
    repeat split; intros; try discriminate; try lia;
    repeat match goal with H : _ /\ _ |- _ => destruct H end; lia.
Qed.

(** X7. The counts never drift from the graph.  The observer is passed to
    a graph and the graph goes through any run of operations, its node set
    of a size that fits [size_t] throughout: no check is hit, and at the
    end [loading_pages_] is the number of pages of the graph that satisfy
    the loading predicate, [visible_loading_pages_] the number of those
    that are visible and [focused_loading_pages_] the number of those that
    are focused. *)
Theorem run_counts_track_graph (nodes : list PageNode)
    (events : list GraphEvent) :
  Forall graph_fits (graphs_along events nodes) ->
  exists w',
    exec (run events) (initial_world nodes) = Ok w' /\
    page_nodes w' = graph_after events nodes /\
    loading_pages_ (global_counts_ w')
      = count_pages is_loading (page_nodes w') /\
    visible_loading_pages_ (global_counts_ w')
      = count_pages (fun p => is_loading p && IsVisible p) (page_nodes w') /\
    focused_loading_pages_ (global_counts_ w')
      = count_pages (fun p => is_loading p && IsFocused p) (page_nodes w').
Proof.
  intros Hfit.
  destruct (run_tracks nodes events Hfit) as (w' & Hrun & Hn & Hc & _).
  exists w'. rewrite Hc, Hn. unfold census. cbn. auto.
Qed.

(** The statement on two pages of which one starts loading, becomes
    focused and then visible, and the other is removed. *)
Lemma run_counts_track_graph_witness :
  exists w',
    exec (run [SetLoadingState 0 kLoading; SetIsFocused 0 true;
               SetIsVisible 0 true; RemovePageNode 1])
      (initial_world [idle_page; idle_page]) = Ok w' /\
    page_nodes w' = [mkPageNode kLoading true true] /\
    global_counts_ w' = mkLoadingCounts 1 1 1.
Proof.
  destruct (run_counts_track_graph [idle_page; idle_page]
              [SetLoadingState 0 kLoading; SetIsFocused 0 true;
               SetIsVisible 0 true; RemovePageNode 1])
    as (w' & Hrun & Hn & Hl & Hv & Hf).
  - cbn. repeat constructor; unfold graph_fits, fits_size_t, SIZE_MAX; cbn;
      lia.
  - exists w'. split; [exact Hrun|]. split; [exact Hn|].
    rewrite Hn in Hl, Hv, Hf. destruct (global_counts_ w') as [f v l].
    cbn in Hl, Hv, Hf. rewrite Hl, Hv, Hf. reflexivity.
Defined.

(** X8. The published cell tells what is in the graph.  After any such run
    the cell holds [kFocusedPageLoading] exactly when some page of the
    graph is loading and focused; [kVisiblePageLoading] exactly when none
    is loading and focused and some page is loading and visible;
    [kBackgroundPageLoading] exactly when none is loading and focused or
    visible and some page is loading; [kNoPageLoading] exactly when no
    page is loading. *)
Theorem published_scenario_reflects_graph (nodes : list PageNode)
    (events : list GraphEvent) :
  Forall graph_fits (graphs_along events nodes) ->
  exists w',
    exec (run events) (initial_world nodes) = Ok w' /\
    (global_loading_scenario w' = kFocusedPageLoading <->
       some_page (fun p => is_loading p && IsFocused p) (page_nodes w')) /\
    (global_loading_scenario w' = kVisiblePageLoading <->
       ~ some_page (fun p => is_loading p && IsFocused p) (page_nodes w') /\
       some_page (fun p => is_loading p && IsVisible p) (page_nodes w')) /\
    (global_loading_scenario w' = kBackgroundPageLoading <->
       ~ some_page (fun p => is_loading p && IsFocused p) (page_nodes w') /\
       ~ some_page (fun p => is_loading p && IsVisible p) (page_nodes w') /\
       some_page is_loading (page_nodes w')) /\
    (global_loading_scenario w' = kNoPageLoading <->
       ~ some_page is_loading (page_nodes w')).
Proof.
  intros Hfit.
  destruct (run_tracks nodes events Hfit) as (w' & Hrun & Hn & _ & Hs).
  exists w'. split; [exact Hrun|]. rewrite Hs, Hn. apply GetScenario_census.
Qed.

(** The statement on a page that starts loading and becomes focused while
    it is not visible: the cell holds [kFocusedPageLoading]. *)
Lemma published_scenario_reflects_graph_witness :
  exists w',
    exec (run [SetLoadingState 0 kLoading; SetIsFocused 0 true])
      (initial_world [idle_page]) = Ok w' /\
    global_loading_scenario w' = kFocusedPageLoading.
Proof.
  destruct (published_scenario_reflects_graph [idle_page]
              [SetLoadingState 0 kLoading; SetIsFocused 0 true])
    as (w' & Hrun & Hfoc & _).
  - cbn. repeat constructor; unfold graph_fits, fits_size_t, SIZE_MAX; cbn;
      lia.
  - exists w'. split; [exact Hrun|]. apply Hfoc.
    assert (Hn : page_nodes w' = [mkPageNode kLoading false true]).
    { revert Hrun. vm_compute. intros H. injection H as <-. reflexivity. }
    rewrite Hn. exists (mkPageNode kLoading false true).
    split; [left|reflexivity].
Defined.

(** X9. The order of the notifications does not matter.  Two runs, from
    any two graphs, that end with the same pages in the graph, in whatever
    order, end with the same counts and the same published scenario. *)
Theorem final_state_independent_of_order (nodes1 nodes2 : list PageNode)
    (events1 events2 : list GraphEvent) :
  Forall graph_fits (graphs_along events1 nodes1) ->
  Forall graph_fits (graphs_along events2 nodes2) ->
  graph_after events1 nodes1 ≡ₚ graph_after events2 nodes2 ->
  exists w1 w2,
    exec (run events1) (initial_world nodes1) = Ok w1 /\
    exec (run events2) (initial_world nodes2) = Ok w2 /\
    global_counts_ w1 = global_counts_ w2 /\
    global_loading_scenario w1 = global_loading_scenario w2.
Proof.
  intros Hfit1 Hfit2 Hperm.
  destruct (run_tracks nodes1 events1 Hfit1) as (w1 & Hrun1 & _ & Hc1 & Hs1).
  destruct (run_tracks nodes2 events2 Hfit2) as (w2 & Hrun2 & _ & Hc2 & Hs2).
  exists w1, w2. rewrite Hc1, Hc2, Hs1, Hs2, (census_Permutation _ _ Hperm).
  auto.
Qed.

(** A loading page that becomes focused and then visible, and one that
    becomes visible and then focused. *)
Lemma final_state_independent_of_order_witness :
  exists w1 w2,
    exec (run [SetIsFocused 0 true; SetIsVisible 0 true])
      (initial_world [background_loading_page]) = Ok w1 /\
    exec (run [SetIsVisible 0 true; SetIsFocused 0 true])
      (initial_world [background_loading_page]) = Ok w2 /\
    global_counts_ w1 = global_counts_ w2 /\
    global_loading_scenario w1 = global_loading_scenario w2.
Proof.
  apply final_state_independent_of_order.
  - cbn. repeat constructor; unfold graph_fits, fits_size_t, SIZE_MAX; cbn;
      lia.
  - cbn. repeat constructor; unfold graph_fits, fits_size_t, SIZE_MAX; cbn;
      lia.
  - reflexivity.
Defined.

End ScenarioOfPopulation.

(* ===================================================================== *)
(** * Attaching and detaching in sequence *)
(* ===================================================================== *)

Section Lifecycle.

Lemma OnPassedToGraph_fatal_on_counts (w : World) :
  global_counts_ w <> LoadingCounts_default ->
  exec OnPassedToGraph w = Fatal.
Proof.
  intros Hne. unfold_handler. cbn.
  destruct (bool_decide_reflect (global_counts_ w = LoadingCounts_default));
    [contradiction|reflexivity].
Qed.

Lemma OnTakenFromGraph_world (w : World) :
  OnTakenFromGraph w =
    Ok (tt, {| page_nodes := page_nodes w;
               page_node_observer := false;
               global_counts_ := LoadingCounts_default;
               global_loading_scenario := kNoPageLoading;
               scenario_stores := scenario_stores w ++ [kNoPageLoading];
               counts_trace := counts_trace w ++ [LoadingCounts_default] |}).
Proof. reflexivity. Qed.

(** X10. Detaching makes attaching safe again.  From every world whose
    graph is of a size that fits [size_t], whatever the counts and the
    published cell hold, [OnTakenFromGraph] followed by [OnPassedToGraph]
    returns: both checks of [OnPassedToGraph] pass, the observer is
    registered, the counts are the census of the graph and the published
    cell holds its scenario. *)
Theorem reattach_after_detach (w : World) :
  graph_fits (page_nodes w) ->
  exists w',
    exec (OnTakenFromGraph ;; OnPassedToGraph) w = Ok w' /\
    page_node_observer w' = true /\
    global_counts_ w' = census (page_nodes w) /\
    global_loading_scenario w' = GetScenario (census (page_nodes w)).
Proof.
  intros Hfit. rewrite exec_bind, OnTakenFromGraph_world.
  match goal with
  | |- context [exec OnPassedToGraph ?w1] =>
      destruct (OnPassedToGraph_attached (fun _ => True) (fun _ => True)
                  (fun _ _ _ => I) (fun _ _ => I) w1)
        as (w' & Hrun & _ & (Hc & Hs & _) & (Hobs & _ & _));
        try reflexivity; auto
  end.
  { apply any_trace. }
  exists w'. cbn in Hc, Hs. auto.
Qed.

(** The statement from a world left with stale counts and a stale
    published value. *)
Lemma reattach_after_detach_witness :
  exists w',
    exec (OnTakenFromGraph ;; OnPassedToGraph)
      (mkWorld four_pages true counts_at_max kVisiblePageLoading [] [])
      = Ok w' /\
    page_node_observer w' = true /\
    global_counts_ w' = census four_pages /\
    global_loading_scenario w' = GetScenario (census four_pages).
Proof.
  apply (reattach_after_detach
           (mkWorld four_pages true counts_at_max kVisiblePageLoading [] [])).
  unfold graph_fits, fits_size_t, SIZE_MAX. cbn. lia.
Defined.

(** X11. Attaching twice.  On an observer that was just constructed, a
    second [OnPassedToGraph] straight after the first is fatal exactly when
    some page of the graph satisfies the loading predicate: the first call
    has counted it, and the check on the counts fails. *)
Theorem second_attach_fatal_iff_loading (w : World) :
  global_counts_ w = LoadingCounts_default ->
  global_loading_scenario w = kNoPageLoading ->
  graph_fits (page_nodes w) ->
  (exec (OnPassedToGraph ;; OnPassedToGraph) w = Fatal <->
   some_page is_loading (page_nodes w)).
Proof.
  intros Hc Hs Hfit.
  destruct (OnPassedToGraph_attached (fun _ => True) (fun _ => True)
              (fun _ _ _ => I) (fun _ _ => I) w Hc Hs Hfit I (any_trace w))
    as (w1 & Hrun1 & Hn1 & (Hc1 & Hs1 & _) & _).
  rewrite exec_bind, (exec_unit _ _ _ Hrun1).
  destruct (decide (census (page_nodes w) = LoadingCounts_default)) as [E|E].
  - rewrite E in Hc1, Hs1.
    destruct (OnPassedToGraph_attached (fun _ => True) (fun _ => True)
                (fun _ _ _ => I) (fun _ _ => I) w1 Hc1 Hs1)
      as (w2 & Hrun2 & _); auto.
    { rewrite Hn1. exact Hfit. }
    { apply any_trace. }
    rewrite Hrun2. apply census_default_iff in E. split; [discriminate|].
    intros H. contradiction.
  - rewrite OnPassedToGraph_fatal_on_counts by congruence.
    split; [intros _|reflexivity].
    destruct (decide (0 < count_pages is_loading (page_nodes w))%Z) as [H|H].
    + apply count_pages_pos, H.
    + exfalso. apply E, census_default_iff. rewrite <- count_pages_pos.
      exact H.
Qed.

(** The statement on the four pages of the attach example, two of which
    are loading. *)
Lemma second_attach_fatal_iff_loading_witness :
  exec (OnPassedToGraph ;; OnPassedToGraph) (initial_world four_pages)
    = Fatal.
Proof.
  apply (second_attach_fatal_iff_loading (initial_world four_pages)).
  - reflexivity.
  - reflexivity.
  - unfold graph_fits, fits_size_t, SIZE_MAX. cbn. lia.
  - exists (mkPageNode kLoading true false). split; [|reflexivity].
    unfold four_pages. do 2 right. left.
Defined.

End Lifecycle.

(* ===================================================================== *)
(** * The unit tests, replayed *)
(* ===================================================================== *)

Section UnitTests.

(** [FocusedAndVisible] (loading_scenario_observer_unittest.cc, lines
    158-203): the graph holds [page] and [other_page]; the list is the
    value the test expects after each operation, with the value computed
    here where the test does not read it (after [other_page] starts
    loading). *)
Example FocusedAndVisible :
  test_scenarios [idle_page; idle_page]
    [ SetLoadingState 0 kLoading; SetIsFocused 0 true; SetIsVisible 0 true;
      SetIsFocused 0 false; SetIsVisible 0 false;
      SetIsVisible 0 true; SetIsFocused 0 true; SetIsVisible 0 false;
      SetIsFocused 0 false;
      SetLoadingState 1 kLoading; SetIsVisible 1 true;
      SetIsFocused 0 true; SetIsVisible 0 true; SetIsFocused 0 false;
      SetIsVisible 0 false;
      SetIsVisible 0 true; SetIsFocused 0 true; SetIsVisible 0 false;
      SetIsFocused 0 false ]
  = [ kBackgroundPageLoading; kFocusedPageLoading; kFocusedPageLoading;
      kVisiblePageLoading; kBackgroundPageLoading;
      kVisiblePageLoading; kFocusedPageLoading; kFocusedPageLoading;
      kBackgroundPageLoading;
      kBackgroundPageLoading; kVisiblePageLoading;
      kFocusedPageLoading; kFocusedPageLoading; kVisiblePageLoading;
      kVisiblePageLoading;
      kVisiblePageLoading; kFocusedPageLoading; kFocusedPageLoading;
      kVisiblePageLoading ].
Proof. vm_compute. reflexivity. Qed.

(** [PageNodeRemoved] (lines 205-232): four pages are created in an empty
    graph, the third made visible and the fourth visible and focused; a
    page that is removed shifts the pages after it down by one. *)
Example PageNodeRemoved :
  test_scenarios []
    [ AddPageNode idle_page; AddPageNode idle_page;
      AddPageNode idle_page; SetIsVisible 2 true;
      AddPageNode idle_page; SetIsVisible 3 true; SetIsFocused 3 true;
      RemovePageNode 0;
      SetLoadingState 0 kLoading; RemovePageNode 0;
      SetLoadingState 0 kLoading; RemovePageNode 0;
      SetLoadingState 0 kLoading; RemovePageNode 0 ]
  = [ kNoPageLoading; kNoPageLoading;
      kNoPageLoading; kNoPageLoading;
      kNoPageLoading; kNoPageLoading; kNoPageLoading;
      kNoPageLoading;
      kBackgroundPageLoading; kNoPageLoading;
      kVisiblePageLoading; kNoPageLoading;
      kFocusedPageLoading; kNoPageLoading ].
Proof. vm_compute. reflexivity. Qed.

End UnitTests.

(* ===================================================================== *)
(** * The nesting of the counts along a run *)
(* ===================================================================== *)

Section Nesting.
Local Open Scope Z_scope.

Lemma Ok_inj (w1 w2 : World) : Ok w1 = Ok w2 -> w1 = w2.
Proof. intros H. injection H as ->. reflexivity. Qed.

(** C2, amended.  The observer is passed to a graph and the graph goes
    through any run of operations, its node set being of a size that fits
    [size_t] throughout.  The run returns, and after every operation on
    the counts visible_loading_pages <= loading_pages and
    focused_loading_pages <= loading_pages.  The counts at the end also
    satisfy focused_loading_pages <= visible_loading_pages when, at the
    end, every page that satisfies the loading predicate and reports focus
    reports visibility; and the counts after every operation satisfy it
    when this holds of the graph at every point of the run. *)
Theorem counts_nested_along_run (nodes : list PageNode)
    (events : list GraphEvent) :
  Forall graph_fits (graphs_along events nodes) ->
  exists w',
    exec (run events) (initial_world nodes) = Ok w' /\
    page_nodes w' = graph_after events nodes /\
    Forall (fun c => focused_loading_pages_ c <= loading_pages_ c /\
                     visible_loading_pages_ c <= loading_pages_ c)
      (counts_trace w') /\
    (Forall loading_focus_implies_visible (page_nodes w') ->
     counts_nested (global_counts_ w')) /\
    (Forall (Forall loading_focus_implies_visible)
       (graphs_along events nodes) ->
     Forall counts_nested (counts_trace w')).
Proof.
  intros Hfit.
  destruct (run_tracks nodes events Hfit) as (w' & Hrun & Hn & Hc & _).
  exists w'. split; [exact Hrun|]. split; [exact Hn|]. split; [|split].
  - destruct (counts_within_loading_along_run nodes events Hfit)
      as (w1 & Hrun1 & Htr1).
    rewrite Hrun in Hrun1. apply Ok_inj in Hrun1. subst w1. exact Htr1.
  - intros HG. rewrite Hc, <- Hn. apply census_nested, HG.
  - intros HG.
    destruct (run_attached (Forall loading_focus_implies_visible)
                counts_nested Forall_focus_prefix Forall_focus_remove
                census_nested nodes events HG Hfit)
      as (w2 & Hrun2 & (_ & _ & Htr2) & _).
    rewrite Hrun in Hrun2. apply Ok_inj in Hrun2. subst w2. exact Htr2.
Qed.

(** The amended statement on a page that becomes focused, then visible,
    and only then starts loading: between the first two operations it
    reports focus without visibility, but it is not loading then. *)
Lemma counts_nested_along_run_witness :
  exists w',
    exec (run [SetIsFocused 0 true; SetIsVisible 0 true;
               SetLoadingState 0 kLoading])
      (initial_world [idle_page]) = Ok w' /\
    global_counts_ w' = mkLoadingCounts 1 1 1 /\
    counts_nested (global_counts_ w') /\
    Forall counts_nested (counts_trace w').
Proof.
  destruct (counts_nested_along_run [idle_page]
              [SetIsFocused 0 true; SetIsVisible 0 true;
               SetLoadingState 0 kLoading])
    as (w' & Hrun & Hn & _ & Hend & Hall).
  - cbn. repeat constructor; unfold graph_fits, fits_size_t, SIZE_MAX; cbn;
      lia.
  - exists w'. split; [exact Hrun|]. split; [|split].
    + revert Hrun. vm_compute. intros H. injection H as <-. reflexivity.
    + apply Hend. rewrite Hn. cbn. repeat constructor.
    + apply Hall. cbn. repeat constructor;
        unfold loading_focus_implies_visible, is_loading; cbn;
        intros H1 H2; first [reflexivity | discriminate H1 | discriminate H2].
Defined.

End Nesting.
